(** * Course catalog: a shallow embedding of the Flask application

    The repository holds five entry points ([app.py], [app2.py], [app3.py],
    [app_jaeger.py], [jaeger_trail.py]) over the same three helpers and four
    routes.  They differ in the tracing and logging they wire in and, for
    [add_course], in which form fields are checked before a course is saved.

    The embedding follows the Python text: values are the objects that
    [json.load] produces, a handler is a computation over the course file and
    the flashed messages, and exceptions are results that skip the rest of the
    handler.  Calls to [logging] and to the tracer write to the observability
    back end only; they touch neither the file nor the session and are left
    out, as is the [processing_time] that [jaeger_trail.py] hands to its
    catalog template. *)

From Stdlib Require Import ZArith.
From stdpp Require Import base option list strings gmap.

(** ** Python values *)

(** The objects [json.load] builds, which are also the ones [json.dump]
    accepts.  A float is carried by the text [repr] prints for it; a [dict]
    keeps its entries in insertion order. *)
#[warnings="-register-all"]
Inductive pyval : Type :=
| PNone
| PBool (b : bool)
| PInt (n : Z)
| PFloat (repr : string)
| PStr (s : string)
| PList (items : list pyval)
| PDict (entries : list (string * pyval)).

Inductive exn : Type :=
| JSONDecodeError
| FileNotFoundError
| KeyError (key : string)
| TypeError
| AttributeError.

Inductive result (A : Type) : Type :=
| Ok (a : A)
| Raise (e : exn).
Arguments Ok {A} a.
Arguments Raise {A} e.

(** [bool(v)], the test behind [if v] and [not v]. *)
Definition truthy (v : pyval) : bool :=
  match v with
  | PNone => false
  | PBool b => b
  | PInt n => negb (n =? 0)%Z
  | PFloat r => negb (String.eqb r "0.0" || String.eqb r "-0.0")
  | PStr s => negb (String.eqb s "")
  | PList items => negb (bool_decide (items = []))
  | PDict entries => negb (bool_decide (entries = []))
  end.

(** [d.get(k)] on the entries of a [dict]. *)
Fixpoint dict_get (entries : list (string * pyval)) (k : string) : option pyval :=
  match entries with
  | [] => None
  | (k', v) :: rest => if String.eqb k' k then Some v else dict_get rest k
  end.

(** [v[k]] for a string [k]: a [dict] looks the key up, every other object
    refuses a string subscript. *)
Definition py_getitem (v : pyval) (k : string) : result pyval :=
  match v with
  | PDict entries =>
      match dict_get entries k with
      | Some x => Ok x
      | None => Raise (KeyError k)
      end
  | _ => Raise TypeError
  end.

(** [v == s] for a [str] [s]. *)
Definition py_eq_str (v : pyval) (s : string) : bool :=
  match v with
  | PStr t => String.eqb t s
  | _ => false
  end.

Fixpoint chars (s : string) : list pyval :=
  match s with
  | EmptyString => []
  | String a rest => PStr (String a EmptyString) :: chars rest
  end.

(** [iter(v)], unrolled: the objects a [for] over [v] visits. *)
Definition py_iter (v : pyval) : result (list pyval) :=
  match v with
  | PList items => Ok items
  | PDict entries => Ok (map (λ e, PStr (fst e)) entries)
  | PStr s => Ok (chars s)
  | _ => Raise TypeError
  end.

(** [len(v)]. *)
Definition py_len (v : pyval) : result nat :=
  match v with
  | PList items => Ok (length items)
  | PDict entries => Ok (length entries)
  | PStr s => Ok (String.length s)
  | _ => Raise TypeError
  end.

(** [v.append(x)]: only a [list] has the method. *)
Definition py_append (v x : pyval) : result pyval :=
  match v with
  | PList items => Ok (PList (items ++ [x]))
  | _ => Raise AttributeError
  end.

(** ** The world a request runs in *)

(** The text of [course_catalog.json], up to what [json.load] makes of it:
    either text the parser rejects, or a document for some value. *)
Inductive file_text : Type :=
| Garbage (raw : string)
| Encoded (doc : pyval).

Definition json_load (t : file_text) : result pyval :=
  match t with
  | Garbage _ => Raise JSONDecodeError
  | Encoded doc => Ok doc
  end.

(** [json.dump] accepts every [pyval] and writes a document that [json.load]
    reads back as the same value; that contract of the library is part of the
    file model. *)
Definition json_dump (v : pyval) : file_text := Encoded v.

(** [course_file] is [None] while the file does not exist; [flashes] are the
    (category, message) pairs waiting in the session. *)
Record world : Type := World {
  course_file : option file_text;
  flashes : list (string * string)
}.

Definition M (A : Type) : Type := world → result A * world.

Definition ret {A} (a : A) : M A := λ w, (Ok a, w).
Definition raise {A} (e : exn) : M A := λ w, (Raise e, w).
Definition bind {A B} (m : M A) (k : A → M B) : M B :=
  λ w, match m w with
       | (Ok a, w') => k a w'
       | (Raise e, w') => (Raise e, w')
       end.
Definition lift {A} (r : result A) : M A := λ w, (r, w).

Declare Scope handler_scope.
Delimit Scope handler_scope with handler.
Notation "x <- m ;; k" := (bind m (λ x, k))
  (at level 100, m at next level, right associativity) : handler_scope.
Notation "m ;;; k" := (bind m (λ _, k))
  (at level 100, right associativity) : handler_scope.
Local Open Scope handler_scope.

Definition path_exists : M bool :=
  λ w, (Ok (bool_decide (is_Some (course_file w))), w).

Definition read_file : M file_text :=
  λ w, match course_file w with
       | Some t => (Ok t, w)
       | None => (Raise FileNotFoundError, w)
       end.

Definition write_file (t : file_text) : M unit :=
  λ w, (Ok (), World (Some t) (flashes w)).

Definition flash (message category : string) : M unit :=
  λ w, (Ok (), World (course_file w) (flashes w ++ [(category, message)])).

(** ** Utility functions *)

Definition load_courses : M pyval :=
  present <- path_exists ;;
  if negb present then ret (PList [])
  else (t <- read_file ;; lift (json_load t)).

Definition save_courses (data : pyval) : M unit :=
  courses <- load_courses ;;
  courses' <- lift (py_append courses data) ;;
  write_file (json_dump courses').

(** ** Routes *)

Inductive variant : Type := App | App2 | App3 | AppJaeger | JaegerTrail.

Inductive http_method : Type := GET | HEAD | POST.

Inductive response : Type :=
| Render (template : string) (context : list (string * pyval))
| Redirect (endpoint : string).

(** The variants whose [add_course] collects [missing_fields] over all four
    form fields; the other two test name and instructor only. *)
Definition is_strict (v : variant) : bool :=
  match v with
  | App | AppJaeger | JaegerTrail => true
  | App2 | App3 => false
  end.

(** The variants that record [len(courses)] on the catalog span. *)
Definition counts_courses (v : variant) : bool :=
  match v with
  | App2 | App3 | AppJaeger => true
  | App | JaegerTrail => false
  end.

Definition index : M response := ret (Render "index.html" []).

Definition course_catalog (v : variant) : M response :=
  courses <- load_courses ;;
  (if counts_courses v then (n <- lift (py_len courses) ;; ret ()) else ret ()) ;;;
  ret (Render "course_catalog.html" [("courses", courses)]).

(** [next((course for course in courses if course['code'] == code), None)]
    over the objects still to visit. *)
Fixpoint next_match (code : string) (items : list pyval) : result pyval :=
  match items with
  | [] => Ok PNone
  | course :: rest =>
      match py_getitem course "code" with
      | Raise e => Raise e
      | Ok c => if py_eq_str c code then Ok course else next_match code rest
      end
  end.

Definition course_details (code : string) : M response :=
  courses <- load_courses ;;
  items <- lift (py_iter courses) ;;
  course <- lift (next_match code items) ;;
  if negb (truthy course) then
    flash ("No course found with code '" +:+ code +:+ "'.") "error" ;;;
    ret (Redirect "course_catalog")
  else ret (Render "course_details.html" [("course", course)]).

(** What [request.form.get(k)] hands back: [None] or a [str]. *)
Definition form_value (o : option string) : pyval :=
  match o with
  | Some s => PStr s
  | None => PNone
  end.

(** [f"{o}"]. *)
Definition format_value (o : option string) : string :=
  match o with
  | Some s => s
  | None => "None"
  end.

Definition new_course (course_name instructor semester course_code : option string) : pyval :=
  PDict [("name", form_value course_name);
         ("instructor", form_value instructor);
         ("semester", form_value semester);
         ("code", form_value course_code)].

Definition missing_fields_of (course_name instructor semester course_code : option string)
  : list string :=
  let missing_fields := [] in
  let missing_fields :=
    if negb (truthy (form_value course_name))
    then missing_fields ++ ["Course Name"] else missing_fields in
  let missing_fields :=
    if negb (truthy (form_value instructor))
    then missing_fields ++ ["Instructor"] else missing_fields in
  let missing_fields :=
    if negb (truthy (form_value semester))
    then missing_fields ++ ["Semester"] else missing_fields in
  let missing_fields :=
    if negb (truthy (form_value course_code))
    then missing_fields ++ ["Course Code"] else missing_fields in
  missing_fields.

Definition add_course (v : variant) (method : http_method) (form : gmap string string)
  : M response :=
  match method with
  | POST =>
      let course_name := form !! "name" in
      let instructor := form !! "instructor" in
      let semester := form !! "semester" in
      let course_code := form !! "code" in
      let save_and_redirect :=
        save_courses (new_course course_name instructor semester course_code) ;;;
        flash ("Course '" +:+ format_value course_name +:+ "' added successfully!") "success" ;;;
        ret (Redirect "course_catalog") in
      if is_strict v then
        let missing_fields := missing_fields_of course_name instructor semester course_code in
        if truthy (PList (PStr <$> missing_fields)) then
          flash ("Error: The following fields are required: "
                 +:+ String.concat ", " missing_fields +:+ ".") "error" ;;;
          ret (Redirect "add_course")
        else save_and_redirect
      else
        if negb (truthy (form_value course_name)) || negb (truthy (form_value instructor)) then
          flash "Error: Course name and instructor are required." "error" ;;;
          ret (Redirect "add_course")
        else save_and_redirect
  | _ => ret (Render "add_course.html" [])
  end.

(** The four routes, as [@app.route] registers them. *)
Inductive request : Type :=
| ReqIndex
| ReqCatalog
| ReqCourse (code : string)
| ReqAddCourse (method : http_method) (form : gmap string string).

Definition handle (v : variant) (r : request) : M response :=
  match r with
  | ReqIndex => index
  | ReqCatalog => course_catalog v
  | ReqCourse code => course_details code
  | ReqAddCourse method form => add_course v method form
  end.

(** ** Vocabulary of the statements *)

(** The persisted collection is [cs]: the file holds the array [cs], or
    there is no file yet and [cs] is empty. *)
Definition persisted (w : world) (cs : list pyval) : Prop :=
  (course_file w = None ∧ cs = []) ∨ course_file w = Some (Encoded (PList cs)).

(** The form carries a non-empty string under [k]. *)
Definition filled (form : gmap string string) (k : string) : Prop :=
  ∃ s, form !! k = Some s ∧ s ≠ "".

(** The form carries nothing, or the empty string, under [k]. *)
Definition blank (form : gmap string string) (k : string) : Prop :=
  form !! k = None ∨ form !! k = Some "".

(** The record [add_course] builds from a form. *)
Definition course_of_form (form : gmap string string) : pyval :=
  new_course (form !! "name") (form !! "instructor") (form !! "semester") (form !! "code").

(** The label [add_course] reports for a form key in the strict variants. *)
Definition field_labels : list (string * string) :=
  [("name", "Course Name"); ("instructor", "Instructor");
   ("semester", "Semester"); ("code", "Course Code")].

(** A run of POSTs to [/add_course], one per form, collecting the responses. *)
Fixpoint add_all (v : variant) (forms : list (gmap string string)) : M (list response) :=
  match forms with
  | [] => ret []
  | form :: rest =>
      r <- add_course v POST form ;;
      rs <- add_all v rest ;;
      ret (r :: rs)
  end.

(** [c] is a record with a ['code'] entry. *)
Definition has_code (c : pyval) : Prop := ∃ x, py_getitem c "code" = Ok x.

(** [c] is a record whose ['code'] entry is the string [code]. *)
Definition code_is (c : pyval) (code : string) : Prop :=
  py_getitem c "code" = Ok (PStr code).

(** [c] is passed over by the search for [code] without an exception. *)
Definition skipped (code : string) (c : pyval) : Prop :=
  has_code c ∧ ¬ code_is c code.

(** The ['code'] entry of [c] when it is a string. *)
Definition string_code (c : pyval) : option string :=
  match py_getitem c "code" with
  | Ok (PStr s) => Some s
  | _ => None
  end.

(** The string codes that occur in a collection. *)
Definition codes_of (items : list pyval) : list string := omap string_code items.

(** The form keys whose value the [add_course] of variant [v] tests. *)
Definition validated (v : variant) (k : string) : Prop :=
  k ∈ ["name"; "instructor"] ∨ (is_strict v = true ∧ k ∈ ["semester"; "code"]).

(** Every key that variant [v] tests carries a non-empty string. *)
Definition accepted (v : variant) (form : gmap string string) : Prop :=
  ∀ k, validated v k → filled form k.

(** A run of requests served one after the other; an exception ends the
    run. *)
Fixpoint serve (v : variant) (reqs : list request) : M (list response) :=
  match reqs with
  | [] => ret []
  | req :: rest =>
      r <- handle v req ;;
      rs <- serve v rest ;;
      ret (r :: rs)
  end.

(** The store is an array (or not there yet) and each of its elements is a
    record with a ['code'] entry. *)
Definition healthy (w : world) : Prop :=
  ∃ cs, persisted w cs ∧ Forall has_code cs.

(** [c] is a record of four non-empty strings, in the order [add_course]
    writes them. *)
Definition complete (c : pyval) : Prop :=
  ∃ n i s k,
    c = new_course (Some n) (Some i) (Some s) (Some k) ∧
    n ≠ "" ∧ i ≠ "" ∧ s ≠ "" ∧ k ≠ "".

(** The tests of variant [v] on a form, as one boolean. *)
Definition passes (v : variant) (form : gmap string string) : bool :=
  truthy (form_value (form !! "name")) &&
  truthy (form_value (form !! "instructor")) &&
  (negb (is_strict v) ||
   truthy (form_value (form !! "semester")) && truthy (form_value (form !! "code"))).

(** The response a POST of [form] gets on a store it can be saved to. *)
Definition post_response (v : variant) (form : gmap string string) : response :=
  if passes v form then Redirect "course_catalog" else Redirect "add_course".

(** The forms that a run of requests POSTs to [/add_course], in order. *)
Definition posted (reqs : list request) : list (gmap string string) :=
  omap (λ req, match req with
               | ReqAddCourse POST form => Some form
               | _ => None
               end) reqs.

(** Cases on a key known to lie in a literal list of keys. *)
Ltac key_cases H :=
  repeat (apply elem_of_cons in H; destruct H as [->|H]);
  [..|by apply elem_of_nil in H].

(** ** The handler monad *)

Lemma bind_ok {A B} (m : M A) (k : A → M B) w a w' :
  m w = (Ok a, w') → bind m k w = k a w'.
Proof. intros H. unfold bind. by rewrite H. Qed.

Lemma bind_raise {A B} (m : M A) (k : A → M B) w e w' :
  m w = (Raise e, w') → bind m k w = (Raise e, w').
Proof. intros H. unfold bind. by rewrite H. Qed.

(** ** [load_courses] and [save_courses] *)

Lemma load_courses_absent w :
  course_file w = None → load_courses w = (Ok (PList []), w).
Proof. intros H. unfold load_courses, bind, path_exists. rewrite H. reflexivity. Qed.

Lemma load_courses_present w t :
  course_file w = Some t → load_courses w = (json_load t, w).
Proof.
  intros H. unfold load_courses, bind, path_exists, read_file, lift.
  rewrite H. simpl. rewrite H. reflexivity.
Qed.

Lemma load_courses_persisted w cs :
  persisted w cs → load_courses w = (Ok (PList cs), w).
Proof.
  intros [[H ->]|H].
  - by apply load_courses_absent.
  - by rewrite (load_courses_present _ _ H).
Qed.

Lemma load_courses_world w : (load_courses w).2 = w.
Proof.
  destruct (course_file w) as [t|] eqn:H.
  - by rewrite (load_courses_present _ _ H).
  - by rewrite (load_courses_absent _ H).
Qed.

Lemma load_courses_garbage w raw :
  course_file w = Some (Garbage raw) → load_courses w = (Raise JSONDecodeError, w).
Proof. intros H. by rewrite (load_courses_present _ _ H). Qed.

Lemma save_courses_persisted w cs data :
  persisted w cs →
  save_courses data w = (Ok (), World (Some (Encoded (PList (cs ++ [data])))) (flashes w)).
Proof.
  intros H. unfold save_courses.
  rewrite (bind_ok _ _ _ _ _ (load_courses_persisted _ _ H)).
  reflexivity.
Qed.

(** A save either appends to the persisted array or raises and leaves the
    world as it was. *)
Lemma save_courses_cases w data :
  (∃ cs, persisted w cs ∧
     save_courses data w = (Ok (), World (Some (Encoded (PList (cs ++ [data])))) (flashes w)))
  ∨ (∃ e, save_courses data w = (Raise e, w)).
Proof.
  destruct (course_file w) as [[raw|doc]|] eqn:H.
  - right. exists JSONDecodeError. unfold save_courses.
    by rewrite (bind_raise _ _ _ _ _ (load_courses_garbage _ _ H)).
  - destruct doc; try (right; exists AttributeError; unfold save_courses;
      rewrite (bind_ok _ _ _ _ _ (load_courses_present _ _ H)); reflexivity).
    left. exists items. assert (persisted w items) by by right.
    split; [done|]. by apply save_courses_persisted.
  - left. exists []. assert (persisted w []) by by left.
    split; [done|]. by apply save_courses_persisted.
Qed.

(** ** Looking a course up *)

Lemma py_eq_str_true x code : py_eq_str x code = true ↔ x = PStr code.
Proof.
  destruct x; simpl; try (split; [discriminate|intros [=]]).
  rewrite String.eqb_eq. split; [by intros ->|by intros [= ->]].
Qed.

Lemma py_eq_str_false x code : py_eq_str x code = false ↔ x ≠ PStr code.
Proof.
  rewrite <- py_eq_str_true. destruct (py_eq_str x code); split; congruence.
Qed.

Lemma skipped_getitem code c :
  skipped code c → ∃ x, py_getitem c "code" = Ok x ∧ py_eq_str x code = false.
Proof.
  intros [[x Hx] Hne]. exists x. split; [done|].
  apply py_eq_str_false. intros ->. by apply Hne.
Qed.

Lemma code_is_truthy c code : code_is c code → truthy c = true.
Proof.
  unfold code_is. destruct c; simpl; try discriminate.
  destruct entries; [discriminate|reflexivity].
Qed.

Lemma next_match_skip code pre rest :
  Forall (skipped code) pre → next_match code (pre ++ rest) = next_match code rest.
Proof.
  induction 1 as [|c pre Hc _ IH]; [done|]. simpl.
  destruct (skipped_getitem _ _ Hc) as (x & -> & ->). exact IH.
Qed.

Lemma next_match_found code pre c rest :
  Forall (skipped code) pre → code_is c code →
  next_match code (pre ++ c :: rest) = Ok c.
Proof.
  intros Hpre Hc. rewrite (next_match_skip _ _ _ Hpre). simpl.
  rewrite Hc. simpl. by rewrite String.eqb_refl.
Qed.

Lemma next_match_none code items :
  Forall (skipped code) items → next_match code items = Ok PNone.
Proof.
  intros H. rewrite <- (app_nil_r items). by rewrite (next_match_skip _ _ _ H).
Qed.

(** The search hands back [None] only after it passed over every object. *)
Lemma next_match_none_inv code items :
  next_match code items = Ok PNone → Forall (skipped code) items.
Proof.
  induction items as [|c items IH]; [constructor|]. simpl.
  destruct (py_getitem c "code") as [x|e] eqn:E; [|discriminate].
  destruct (py_eq_str x code) eqn:Q.
  - intros [= ->]. discriminate.
  - intros H. constructor; [|by apply IH].
    split; [by exists x|]. unfold code_is. rewrite E. intros [= ->].
    apply py_eq_str_false in Q. by apply Q.
Qed.

(** Whatever the search hands back other than [None] is truthy. *)
Lemma next_match_some_inv code items c :
  next_match code items = Ok c → c ≠ PNone → code_is c code.
Proof.
  induction items as [|c' items IH]; simpl; [by intros [= <-]|].
  destruct (py_getitem c' "code") as [x|e] eqn:E; [|discriminate].
  destruct (py_eq_str x code) eqn:Q; [|exact IH].
  intros [= <-] _. apply py_eq_str_true in Q. subst x. exact E.
Qed.

Lemma course_details_run w cs code :
  persisted w cs →
  course_details code w =
    match next_match code cs with
    | Raise e => (Raise e, w)
    | Ok course =>
        if truthy course
        then (Ok (Render "course_details.html" [("course", course)]), w)
        else (Ok (Redirect "course_catalog"),
              World (course_file w)
                (flashes w ++ [("error", "No course found with code '" +:+ code +:+ "'.")]))
    end.
Proof.
  intros H. unfold course_details.
  rewrite (bind_ok _ _ _ _ _ (load_courses_persisted _ _ H)).
  unfold lift, bind. simpl.
  destruct (next_match code cs) as [course|e]; [|done].
  by destruct (truthy course).
Qed.

Lemma course_details_file code w :
  course_file (course_details code w).2 = course_file w.
Proof.
  unfold course_details, bind.
  pose proof (load_courses_world w) as Hw.
  destruct (load_courses w) as [[courses|e] w']; simpl in Hw; subst w'; [|done].
  unfold lift. destruct (py_iter courses) as [items|e]; [|done].
  destruct (next_match code items) as [course|e]; [|done].
  by destruct (truthy course).
Qed.

Lemma course_catalog_world v w : (course_catalog v w).2 = w.
Proof.
  unfold course_catalog, bind.
  pose proof (load_courses_world w) as Hw.
  destruct (load_courses w) as [[courses|e] w']; simpl in Hw; subst w'; [|done].
  destruct (counts_courses v); [|done].
  unfold lift. by destruct (py_len courses).
Qed.

Lemma course_catalog_persisted v w cs :
  persisted w cs →
  course_catalog v w = (Ok (Render "course_catalog.html" [("courses", PList cs)]), w).
Proof.
  intros H. unfold course_catalog.
  rewrite (bind_ok _ _ _ _ _ (load_courses_persisted _ _ H)).
  by destruct (counts_courses v).
Qed.

(** ** Validating a submission *)

Lemma truthy_form_value_false o :
  truthy (form_value o) = false ↔ o = None ∨ o = Some "".
Proof.
  destruct o as [s|]; simpl.
  - rewrite negb_false_iff, String.eqb_eq.
    split; [intros ->; by right|intros [[=]|[= ->]]; done].
  - split; [by left|done].
Qed.

Lemma blank_truthy form k : blank form k ↔ truthy (form_value (form !! k)) = false.
Proof. unfold blank. by rewrite truthy_form_value_false. Qed.

Lemma filled_truthy form k : filled form k ↔ truthy (form_value (form !! k)) = true.
Proof.
  unfold filled. destruct (form !! k) as [s|]; simpl.
  - rewrite negb_true_iff, String.eqb_neq.
    split; [by intros (? & [= <-] & ?)|intros; by exists s].
  - split; [by intros (? & [=] & _)|done].
Qed.

Lemma filled_not_blank form k : filled form k ↔ ¬ blank form k.
Proof.
  rewrite filled_truthy, blank_truthy.
  destruct (truthy (form_value (form !! k))); split; congruence.
Qed.

(** What the four tests of the strict variants put in [missing_fields]. *)
Lemma missing_fields_of_elem n i s c label :
  label ∈ missing_fields_of n i s c ↔
    (label = "Course Name" ∧ truthy (form_value n) = false) ∨
    (label = "Instructor" ∧ truthy (form_value i) = false) ∨
    (label = "Semester" ∧ truthy (form_value s) = false) ∨
    (label = "Course Code" ∧ truthy (form_value c) = false).
Proof.
  unfold missing_fields_of.
  destruct (truthy (form_value n)), (truthy (form_value i)),
    (truthy (form_value s)), (truthy (form_value c)); simpl;
    rewrite ?elem_of_cons, ?elem_of_nil; intuition congruence.
Qed.

Lemma missing_fields_of_NoDup n i s c : NoDup (missing_fields_of n i s c).
Proof.
  unfold missing_fields_of.
  destruct (truthy (form_value n)), (truthy (form_value i)),
    (truthy (form_value s)), (truthy (form_value c)); simpl;
    repeat (apply NoDup_cons; split;
            [rewrite ?elem_of_cons, ?elem_of_nil; intuition congruence|]);
    apply NoDup_nil_2.
Qed.

Lemma missing_fields_of_nil n i s c :
  missing_fields_of n i s c = [] ↔
    truthy (form_value n) = true ∧ truthy (form_value i) = true ∧
    truthy (form_value s) = true ∧ truthy (form_value c) = true.
Proof.
  unfold missing_fields_of.
  destruct (truthy (form_value n)), (truthy (form_value i)),
    (truthy (form_value s)), (truthy (form_value c)); simpl; intuition congruence.
Qed.

Lemma add_course_strict_rejects v form w :
  is_strict v = true →
  missing_fields_of (form !! "name") (form !! "instructor")
    (form !! "semester") (form !! "code") ≠ [] →
  add_course v POST form w =
    (Ok (Redirect "add_course"),
     World (course_file w)
       (flashes w ++
          [("error",
            "Error: The following fields are required: "
            +:+ String.concat ", "
                  (missing_fields_of (form !! "name") (form !! "instructor")
                     (form !! "semester") (form !! "code"))
            +:+ ".")])).
Proof.
  intros Hv Hm. unfold add_course. rewrite Hv. simpl.
  destruct (missing_fields_of _ _ _ _); [done|reflexivity].
Qed.

Lemma add_course_lenient_rejects v form w :
  is_strict v = false →
  truthy (form_value (form !! "name")) = false ∨
  truthy (form_value (form !! "instructor")) = false →
  add_course v POST form w =
    (Ok (Redirect "add_course"),
     World (course_file w)
       (flashes w ++ [("error", "Error: Course name and instructor are required.")])).
Proof.
  intros Hv Hm. unfold add_course. rewrite Hv.
  destruct Hm as [-> | ->]; simpl; [done|].
  by rewrite orb_true_r.
Qed.

(** A submission that passes the tests of its variant is saved and answered
    by a redirect to the catalog; [save_courses] may still raise. *)
Lemma add_course_accepts v form w :
  accepted v form →
  add_course v POST form w =
    (save_courses (course_of_form form) ;;;
     flash ("Course '" +:+ format_value (form !! "name") +:+ "' added successfully!")
       "success" ;;;
     ret (Redirect "course_catalog")) w.
Proof.
  intros Ha. unfold add_course.
  assert (truthy (form_value (form !! "name")) = true) as Hn.
  { apply filled_truthy, Ha. left. set_solver. }
  assert (truthy (form_value (form !! "instructor")) = true) as Hi.
  { apply filled_truthy, Ha. left. set_solver. }
  destruct (is_strict v) eqn:Hv.
  - assert (truthy (form_value (form !! "semester")) = true) as Hs.
    { apply filled_truthy, Ha. right. set_solver. }
    assert (truthy (form_value (form !! "code")) = true) as Hc.
    { apply filled_truthy, Ha. right. set_solver. }
    assert (missing_fields_of (form !! "name") (form !! "instructor")
              (form !! "semester") (form !! "code") = []) as ->.
    { by apply missing_fields_of_nil. }
    reflexivity.
  - rewrite Hn, Hi. reflexivity.
Qed.

Lemma add_course_saves v form w cs :
  accepted v form → persisted w cs →
  add_course v POST form w =
    (Ok (Redirect "course_catalog"),
     World (Some (Encoded (PList (cs ++ [course_of_form form]))))
       (flashes w ++
          [("success",
            "Course '" +:+ format_value (form !! "name") +:+ "' added successfully!")])).
Proof.
  intros Ha Hp. rewrite (add_course_accepts _ _ _ Ha).
  rewrite (bind_ok _ _ _ _ _ (save_courses_persisted _ _ _ Hp)).
  reflexivity.
Qed.

(** Every submission is either turned away with one error notice and the
    world otherwise untouched, or handed to [save_courses]. *)
Lemma add_course_cases v form w :
  (∃ k msg, validated v k ∧ blank form k ∧
     add_course v POST form w =
       (Ok (Redirect "add_course"),
        World (course_file w) (flashes w ++ [("error", msg)])))
  ∨ accepted v form.
Proof.
  destruct (truthy (form_value (form !! "name"))) eqn:Hn; cycle 1.
  { left. exists "name". destruct (is_strict v) eqn:Hv.
    - eexists. split_and!; [left; set_solver|by apply blank_truthy|].
      apply add_course_strict_rejects; [done|].
      intros E%missing_fields_of_nil. intuition congruence.
    - eexists. split_and!; [left; set_solver|by apply blank_truthy|].
      apply add_course_lenient_rejects; auto. }
  destruct (truthy (form_value (form !! "instructor"))) eqn:Hi; cycle 1.
  { left. exists "instructor". destruct (is_strict v) eqn:Hv.
    - eexists. split_and!; [left; set_solver|by apply blank_truthy|].
      apply add_course_strict_rejects; [done|].
      intros E%missing_fields_of_nil. intuition congruence.
    - eexists. split_and!; [left; set_solver|by apply blank_truthy|].
      apply add_course_lenient_rejects; auto. }
  destruct (is_strict v) eqn:Hv; cycle 1.
  { right. intros k [Hk|[? _]]; [|congruence].
    apply filled_truthy. key_cases Hk; done. }
  destruct (truthy (form_value (form !! "semester"))) eqn:Hs; cycle 1.
  { left. exists "semester". eexists.
    split_and!; [right; set_solver|by apply blank_truthy|].
    apply add_course_strict_rejects; [done|].
    intros E%missing_fields_of_nil. intuition congruence. }
  destruct (truthy (form_value (form !! "code"))) eqn:Hc; cycle 1.
  { left. exists "code". eexists.
    split_and!; [right; set_solver|by apply blank_truthy|].
    apply add_course_strict_rejects; [done|].
    intros E%missing_fields_of_nil. intuition congruence. }
  right. intros k [Hk|[_ Hk]]; apply filled_truthy; key_cases Hk; done.
Qed.

Lemma py_getitem_raise_kind c e :
  py_getitem c "code" = Raise e → e = TypeError ∨ e = KeyError "code".
Proof.
  destruct c; simpl; try (intros [= <-]; by left).
  destruct (dict_get entries "code"); [discriminate|intros [= <-]; by right].
Qed.

(** An object without a ['code'] entry stops the search with an exception,
    unless a record before it already matched. *)
Lemma next_match_raises code items :
  ∀ i c, items !! i = Some c → ¬ has_code c →
    (∀ j c', j < i → items !! j = Some c' → ¬ code_is c' code) →
    ∃ e, next_match code items = Raise e ∧ (e = TypeError ∨ e = KeyError "code").
Proof.
  induction items as [|c0 items IH]; intros i c Hi Hc Hpre; [done|].
  simpl. destruct (py_getitem c0 "code") as [x|e] eqn:E; cycle 1.
  { exists e. split; [done|]. by eapply py_getitem_raise_kind. }
  destruct i as [|i].
  { injection Hi as ->. destruct Hc. by exists x. }
  assert (py_eq_str x code = false) as ->.
  { apply py_eq_str_false. intros ->. apply (Hpre 0 c0); [lia|done|exact E]. }
  apply (IH i c); [done|done|].
  intros j c' Hj Hc'. apply (Hpre (S j) c'); [lia|done].
Qed.

Lemma code_is_elem_of_codes code (items : list pyval) c :
  c ∈ items → code_is c code → code ∈ codes_of items.
Proof.
  intros Hin Hc. apply list_elem_of_omap. exists c. split; [done|].
  unfold code_is in Hc. unfold string_code. by rewrite Hc.
Qed.

(** ** Properties of the catalog *)

(** C4. [load_courses] answers with the empty list, not an error, while the
    course file does not exist.  When the file exists but is not valid JSON
    the [JSONDecodeError] of the parser is caught nowhere: it is the outcome of
    [load_courses] and of each of its callers ([course_catalog],
    [course_details], [save_courses], and [add_course] once the form passed
    validation), with the world left as it was. *)
Theorem load_courses_missing_or_malformed (w : world) :
  (course_file w = None → load_courses w = (Ok (PList []), w)) ∧
  (∀ raw, course_file w = Some (Garbage raw) →
     load_courses w = (Raise JSONDecodeError, w) ∧
     (∀ v, course_catalog v w = (Raise JSONDecodeError, w)) ∧
     (∀ code, course_details code w = (Raise JSONDecodeError, w)) ∧
     (∀ data, save_courses data w = (Raise JSONDecodeError, w)) ∧
     (∀ v form, accepted v form →
        add_course v POST form w = (Raise JSONDecodeError, w))).
Proof.
  split; [apply load_courses_absent|].
  intros raw H. pose proof (load_courses_garbage _ _ H) as Hl.
  split_and!; [done|..].
  - intros v. unfold course_catalog. by rewrite (bind_raise _ _ _ _ _ Hl).
  - intros code. unfold course_details. by rewrite (bind_raise _ _ _ _ _ Hl).
  - intros data. unfold save_courses. by rewrite (bind_raise _ _ _ _ _ Hl).
  - intros v form Ha. rewrite (add_course_accepts _ _ _ Ha).
    apply bind_raise. unfold save_courses. by rewrite (bind_raise _ _ _ _ _ Hl).
Qed.

Lemma load_courses_missing_or_malformed_witness :
  load_courses (World None []) = (Ok (PList []), World None []) ∧
  course_catalog App (World (Some (Garbage "{")) [])
    = (Raise JSONDecodeError, World (Some (Garbage "{")) []).
Proof.
  split.
  - apply (proj1 (load_courses_missing_or_malformed (World None []))). reflexivity.
  - apply (proj2 (load_courses_missing_or_malformed (World (Some (Garbage "{")) [])) "{").
    reflexivity.
Defined.

(** C5. Whatever collection [cs] is persisted, [save_courses data] succeeds
    and leaves the file holding the whole of [cs] followed by [data] as its
    last element; the flashed messages are not touched. *)
Theorem save_courses_appends (w : world) (cs : list pyval) (data : pyval) :
  persisted w cs →
  ∃ w', save_courses data w = (Ok (), w') ∧
        course_file w' = Some (Encoded (PList (cs ++ [data]))) ∧
        flashes w' = flashes w.
Proof.
  intros H. eexists. split; [by apply save_courses_persisted|]. done.
Qed.

Lemma save_courses_appends_witness :
  ∃ w', save_courses (PStr "x") (World (Some (Encoded (PList [PInt 1]))) []) = (Ok (), w') ∧
        course_file w' = Some (Encoded (PList ([PInt 1] ++ [PStr "x"]))) ∧
        flashes w' = [].
Proof.
  apply (save_courses_appends (World (Some (Encoded (PList [PInt 1]))) []) [PInt 1] (PStr "x")).
  right. reflexivity.
Defined.

(** C7. Round trip: after [save_courses data] on any persisted collection,
    [load_courses] yields a list whose last element is [data] itself. *)
Theorem save_then_load_last (w : world) (cs : list pyval) (data : pyval) :
  persisted w cs →
  ∃ w' cs', save_courses data w = (Ok (), w') ∧
            load_courses w' = (Ok (PList cs'), w') ∧
            last cs' = Some data.
Proof.
  intros H. eexists _, (cs ++ [data]).
  split; [by apply save_courses_persisted|].
  split; [apply load_courses_persisted; by right|apply last_snoc].
Qed.

Lemma save_then_load_last_witness :
  ∃ w' cs', save_courses (new_course (Some "Algorithms") (Some "Dr. A") (Some "Fall") (Some "CS301"))
              (World None []) = (Ok (), w') ∧
            load_courses w' = (Ok (PList cs'), w') ∧
            last cs' = Some (new_course (Some "Algorithms") (Some "Dr. A") (Some "Fall") (Some "CS301")).
Proof.
  apply (save_then_load_last (World None []) []).
  left. split; reflexivity.
Defined.

(** C3. Over any persisted collection, [course_details code] renders the
    first record, in stored order, whose ['code'] is [code]: the record at
    index [i] is rendered as soon as it matches and the records before it were
    passed over, so of two records that share a code the earlier one is
    shown.  When the search passes over every record, the handler flashes the
    not-found notice and redirects to the catalog.  Neither outcome changes
    the file. *)
Theorem course_details_first_match (w : world) (cs : list pyval) (code : string) :
  persisted w cs →
  (∀ i c, cs !! i = Some c → code_is c code →
     (∀ j c', j < i → cs !! j = Some c' → skipped code c') →
     course_details code w
       = (Ok (Render "course_details.html" [("course", c)]), w)) ∧
  ((∀ c, c ∈ cs → skipped code c) →
     course_details code w
       = (Ok (Redirect "course_catalog"),
          World (course_file w)
            (flashes w ++ [("error", "No course found with code '" +:+ code +:+ "'.")]))).
Proof.
  intros Hp. rewrite (course_details_run _ _ _ Hp). split.
  - intros i c Hi Hc Hpre.
    rewrite <- (take_drop_middle _ _ _ Hi).
    rewrite next_match_found; [by rewrite (code_is_truthy _ _ Hc)| |done].
    apply Forall_lookup. intros j c' Hj.
    apply lookup_take_Some in Hj as [Hj Hlt]. by apply (Hpre j).
  - intros Hall. rewrite next_match_none; [done|]. by apply Forall_forall.
Qed.

Lemma course_details_first_match_witness :
  let first := new_course (Some "Algorithms") (Some "Dr. A") (Some "Fall") (Some "CS301") in
  let second := new_course (Some "Compilers") (Some "Dr. B") (Some "Spring") (Some "CS301") in
  let w := World (Some (Encoded (PList [first; second]))) [] in
  course_details "CS301" w = (Ok (Render "course_details.html" [("course", first)]), w).
Proof.
  intros first second w.
  apply (proj1 (course_details_first_match w [first; second] "CS301"
                  ltac:(right; reflexivity)) 0 first).
  - reflexivity.
  - reflexivity.
  - intros j c' Hj. lia.
Defined.

(** C10. [course_details] indexes every object it visits with ['code'] and
    checks no schema.  Over a persisted array: when every element is a record
    with a ['code'] entry the handler never raises, whatever the code asked
    for; when some element is not a record or has no ['code'] entry, the
    handler never answers not-found: it raises [TypeError] or [KeyError]
    whenever no record before that element matches the code asked for, which
    is the case for at least one (non-empty) code. *)
Theorem course_details_needs_code_keys (w : world) (cs : list pyval) :
  persisted w cs →
  (Forall has_code cs → ∀ code, ∃ r w', course_details code w = (Ok r, w')) ∧
  (∀ i c, cs !! i = Some c → ¬ has_code c →
     (∀ code, (course_details code w).1 ≠ Ok (Redirect "course_catalog")) ∧
     (∀ code, (∀ j c', j < i → cs !! j = Some c' → ¬ code_is c' code) →
        ∃ e, (e = TypeError ∨ e = KeyError "code") ∧
             course_details code w = (Raise e, w)) ∧
     (∃ code e, code ≠ "" ∧ course_details code w = (Raise e, w))).
Proof.
  intros Hp. split.
  - intros Hall code. rewrite (course_details_run _ _ _ Hp).
    assert (∃ c, next_match code cs = Ok c) as [c ->].
    { clear Hp. induction Hall as [|c0 cs [x Hx] _ IH]; simpl; [by eexists|].
      rewrite Hx. destruct (py_eq_str x code); [by eexists|exact IH]. }
    destruct (truthy c); by eexists _, _.
  - intros i c Hi Hc.
    assert (∀ code, (∀ j c', j < i → cs !! j = Some c' → ¬ code_is c' code) →
              ∃ e, (e = TypeError ∨ e = KeyError "code") ∧
                   course_details code w = (Raise e, w)) as Hraise.
    { intros code Hpre. rewrite (course_details_run _ _ _ Hp).
      destruct (next_match_raises code cs i c Hi Hc Hpre) as (e & -> & He).
      by exists e. }
    split_and!; [|exact Hraise|].
    + intros code. rewrite (course_details_run _ _ _ Hp).
      destruct (next_match code cs) as [course|e] eqn:E; [|done].
      destruct (truthy course) eqn:T; [done|]. exfalso.
      assert (course = PNone ∨ course ≠ PNone) as [->|Hne]
        by (destruct course; auto; right; discriminate).
      * apply next_match_none_inv in E.
        rewrite Forall_lookup in E. destruct (E i c Hi) as [? _]. by apply Hc.
      * apply (next_match_some_inv _ _ _ E), code_is_truthy in Hne. congruence.
    + set (code := fresh ("" :: codes_of cs)).
      pose proof (infinite_is_fresh ("" :: codes_of cs)) as Hfresh.
      fold code in Hfresh. apply not_elem_of_cons in Hfresh as [Hne Hfresh].
      destruct (Hraise code) as (e & _ & He).
      { intros j c' _ Hj Hc'. apply Hfresh.
        eapply code_is_elem_of_codes; [|done]. by eapply list_elem_of_lookup_2. }
      by exists code, e.
Qed.

Lemma course_details_needs_code_keys_witness :
  let w := World (Some (Encoded (PList [new_course (Some "Algorithms") (Some "Dr. A")
                                          (Some "Fall") (Some "CS301");
                                        PDict [("name", PStr "Compilers")]]))) [] in
  (∃ r w', course_details "CS301"
             (World (Some (Encoded (PList [PDict [("code", PStr "CS301")]]))) [])
           = (Ok r, w')) ∧
  (∃ e, (e = TypeError ∨ e = KeyError "code") ∧ course_details "CS999" w = (Raise e, w)).
Proof.
  intros w. split.
  - apply (proj1 (course_details_needs_code_keys
                    (World (Some (Encoded (PList [PDict [("code", PStr "CS301")]]))) [])
                    [PDict [("code", PStr "CS301")]] ltac:(right; reflexivity))).
    repeat constructor. by exists (PStr "CS301").
  - refine (proj1 (proj2 (proj2 (course_details_needs_code_keys w _
                      ltac:(right; reflexivity)) 1 (PDict [("name", PStr "Compilers")])
                      eq_refl _)) "CS999" _).
    + intros [x Hx]. discriminate.
    + intros j c' Hj Hc'. destruct j as [|j]; [|lia].
      injection Hc' as <-. intros [=].
Defined.

Lemma missing_fields_of_sublist n i s c :
  missing_fields_of n i s c `sublist_of` field_labels.*2.
Proof.
  unfold missing_fields_of.
  destruct (truthy (form_value n)), (truthy (form_value i)),
    (truthy (form_value s)), (truthy (form_value c)); simpl;
    repeat first [apply sublist_nil | apply sublist_skip | apply sublist_cons].
Qed.

(** C1, amended.  The strict variants ([app.py], [app_jaeger.py],
    [jaeger_trail.py]) test name, instructor, semester and code: the labels
    they collect are exactly those of the blank fields, each once and in form
    order; when there is one the handler flashes the error that lists them
    and redirects to the form, otherwise the submission is accepted.  The
    lenient variants ([app2.py], [app3.py]) test name and instructor only:
    when either is blank they flash one fixed error that names both and
    redirect to the form, otherwise they save the course, whatever code and
    semester are. *)
Theorem add_course_validation (v : variant) (form : gmap string string) (w : world) :
  (is_strict v = true →
     ∃ missing,
       NoDup missing ∧ missing `sublist_of` field_labels.*2 ∧
       (∀ label, label ∈ missing ↔ ∃ k, (k, label) ∈ field_labels ∧ blank form k) ∧
       (missing ≠ [] →
          add_course v POST form w =
            (Ok (Redirect "add_course"),
             World (course_file w)
               (flashes w ++
                  [("error",
                    "Error: The following fields are required: "
                    +:+ String.concat ", " missing +:+ ".")]))) ∧
       (missing = [] → accepted v form)) ∧
  (is_strict v = false →
     (blank form "name" ∨ blank form "instructor" →
        add_course v POST form w =
          (Ok (Redirect "add_course"),
           World (course_file w)
             (flashes w ++ [("error", "Error: Course name and instructor are required.")]))) ∧
     (filled form "name" → filled form "instructor" →
        add_course v POST form w =
          (save_courses (course_of_form form) ;;;
           flash ("Course '" +:+ format_value (form !! "name") +:+ "' added successfully!")
             "success" ;;;
           ret (Redirect "course_catalog")) w)).
Proof.
  split; intros Hv.
  - exists (missing_fields_of (form !! "name") (form !! "instructor")
              (form !! "semester") (form !! "code")).
    split_and!.
    + apply missing_fields_of_NoDup.
    + apply missing_fields_of_sublist.
    + intros label. rewrite missing_fields_of_elem, <- !blank_truthy. split.
      * intros [[-> H]|[[-> H]|[[-> H]|[-> H]]]]; eexists;
          (split; [|exact H]); unfold field_labels;
          rewrite ?elem_of_cons; auto 6.
      * intros (k & Hk & Hb). unfold field_labels in Hk.
        repeat (apply elem_of_cons in Hk; destruct Hk as [[= -> ->]|Hk]); auto 6.
        by apply elem_of_nil in Hk.
    + by apply add_course_strict_rejects.
    + intros Hm%missing_fields_of_nil k [Hk|[_ Hk]];
        apply filled_truthy; key_cases Hk; intuition.
  - split.
    + rewrite !blank_truthy. by apply add_course_lenient_rejects.
    + intros Hn Hi. apply add_course_accepts.
      intros k [Hk|[? _]]; [key_cases Hk; done|congruence].
Qed.

Lemma add_course_validation_witness :
  (∃ missing,
     NoDup missing ∧ missing `sublist_of` field_labels.*2 ∧
     (∀ label, label ∈ missing ↔
        ∃ k, (k, label) ∈ field_labels ∧
             blank ({["name" := "Algorithms"; "semester" := ""]} : gmap string string) k) ∧
     (missing ≠ [] →
        add_course App POST {["name" := "Algorithms"; "semester" := ""]} (World None []) =
          (Ok (Redirect "add_course"),
           World None
             ([] ++
                [("error",
                  "Error: The following fields are required: "
                  +:+ String.concat ", " missing +:+ ".")]))) ∧
     (missing = [] → accepted App {["name" := "Algorithms"; "semester" := ""]})) ∧
  add_course App2 POST {["instructor" := "Dr. A"]} (World None []) =
    (Ok (Redirect "add_course"),
     World None ([] ++ [("error", "Error: Course name and instructor are required.")])).
Proof.
  split.
  - apply (proj1 (add_course_validation App
                    {["name" := "Algorithms"; "semester" := ""]} (World None []))).
    reflexivity.
  - apply (proj1 (proj2 (add_course_validation App2 {["instructor" := "Dr. A"]}
                           (World None [])) eq_refl)).
    left. left. reflexivity.
Defined.

(** C1 as worded fails in the lenient variants.  In [app2.py] a submission
    without a code is not turned away: the course is saved with [None] for its
    code and semester.  And a submission that lacks only its name is answered
    with the notice that names the instructor as well. *)
Lemma add_course_validation_counterexample :
  blank ({["name" := "Algorithms"; "instructor" := "Dr. A"]} : gmap string string) "code" ∧
  add_course App2 POST {["name" := "Algorithms"; "instructor" := "Dr. A"]} (World None []) =
    (Ok (Redirect "course_catalog"),
     World (Some (Encoded (PList [PDict [("name", PStr "Algorithms");
                                         ("instructor", PStr "Dr. A");
                                         ("semester", PNone);
                                         ("code", PNone)]])))
       [("success", "Course 'Algorithms' added successfully!")]) ∧
  filled ({["instructor" := "Dr. A"; "code" := "CS301"]} : gmap string string) "instructor" ∧
  add_course App2 POST {["instructor" := "Dr. A"; "code" := "CS301"]} (World None []) =
    (Ok (Redirect "add_course"),
     World None [("error", "Error: Course name and instructor are required.")]).
Proof.
  split_and!.
  - left. reflexivity.
  - reflexivity.
  - exists "Dr. A". split; [reflexivity|discriminate].
  - reflexivity.
Qed.

Lemma add_course_rejects_blank v form w k :
  validated v k → blank form k →
  ∃ msg, add_course v POST form w
         = (Ok (Redirect "add_course"),
            World (course_file w) (flashes w ++ [("error", msg)])).
Proof.
  intros Hk Hb.
  destruct (add_course_cases v form w) as [(k' & msg & _ & _ & ->)|Ha].
  - by exists msg.
  - apply Ha, filled_not_blank in Hk. by destruct Hk.
Qed.

(** C2, amended.  When a field that the variant tests is empty or absent
    (name, instructor, semester or code in the strict variants of [app.py],
    [app_jaeger.py] and [jaeger_trail.py]; name or instructor in the lenient
    variants of [app2.py] and [app3.py]), [add_course] answers with the
    validation failure, a redirect to the form with one more error notice,
    and the course file is exactly what it was, whatever it held. *)
Theorem add_course_invalid_keeps_store
    (v : variant) (form : gmap string string) (w : world) (k : string) :
  validated v k → blank form k →
  ∃ w' msg, add_course v POST form w = (Ok (Redirect "add_course"), w') ∧
            course_file w' = course_file w ∧
            flashes w' = flashes w ++ [("error", msg)].
Proof.
  intros Hk Hb.
  destruct (add_course_rejects_blank v form w k Hk Hb) as (msg & ->).
  by eexists _, msg.
Qed.

Lemma add_course_invalid_keeps_store_witness :
  ∃ w' msg,
    add_course JaegerTrail POST {["name" := "Algorithms"; "instructor" := ""]}
      (World (Some (Garbage "[{")) []) = (Ok (Redirect "add_course"), w') ∧
    course_file w' = Some (Garbage "[{") ∧
    flashes w' = [] ++ [("error", msg)].
Proof.
  apply (add_course_invalid_keeps_store JaegerTrail
           {["name" := "Algorithms"; "instructor" := ""]}
           (World (Some (Garbage "[{")) []) "code").
  - right. split; [reflexivity|]. apply elem_of_cons. right. apply elem_of_cons. by left.
  - left. reflexivity.
Defined.

(** C2 as worded, with the code among the required fields of every variant,
    fails in the lenient variants.  In [app3.py] a submission whose code is
    absent is not turned away: it is answered by the success redirect and the
    course file changes, the record being appended with [None] for its code. *)
Lemma add_course_invalid_keeps_store_counterexample :
  blank ({["name" := "Algorithms"; "instructor" := "Dr. A"; "semester" := "Fall"]}
           : gmap string string) "code" ∧
  add_course App3 POST
    {["name" := "Algorithms"; "instructor" := "Dr. A"; "semester" := "Fall"]}
    (World (Some (Encoded (PList []))) [])
  = (Ok (Redirect "course_catalog"),
     World (Some (Encoded (PList [PDict [("name", PStr "Algorithms");
                                         ("instructor", PStr "Dr. A");
                                         ("semester", PStr "Fall");
                                         ("code", PNone)]])))
       [("success", "Course 'Algorithms' added successfully!")]) ∧
  course_file
    (add_course App3 POST
       {["name" := "Algorithms"; "instructor" := "Dr. A"; "semester" := "Fall"]}
       (World (Some (Encoded (PList []))) [])).2
  ≠ course_file (World (Some (Encoded (PList []))) []).
Proof.
  split_and!.
  - left. reflexivity.
  - reflexivity.
  - discriminate.
Qed.




Lemma add_course_get_world v method form w :
  method ≠ POST → (add_course v method form w).2 = w.
Proof. by destruct method. Qed.

(** What a POST to [/add_course] can do to the course file: nothing, or, on
    the successful path only, extend the persisted array by the new record. *)
Lemma add_course_post_file v form w :
  course_file (add_course v POST form w).2 = course_file w
  ∨ ∃ cs, persisted w cs ∧
          add_course v POST form w
          = (Ok (Redirect "course_catalog"),
             World (Some (Encoded (PList (cs ++ [course_of_form form]))))
               (flashes w ++
                  [("success",
                    "Course '" +:+ format_value (form !! "name")
                    +:+ "' added successfully!")]))
          ∧ accepted v form.
Proof.
  destruct (add_course_cases v form w) as [(k & msg & _ & _ & ->)|Ha]; [by left|].
  destruct (save_courses_cases w (course_of_form form)) as [(cs & Hp & _)|[e He]].
  - right. exists cs. split; [done|]. split; [by apply add_course_saves|done].
  - left. rewrite (add_course_accepts _ _ _ Ha), (bind_raise _ _ _ _ _ He). done.
Qed.

(** C8. No route updates or deletes a stored course.  Every request other
    than a POST to [/add_course] (the landing page, the catalog, a course
    page, the empty form) leaves the course file as it was.  A POST that ends
    in the success redirect found a persisted array and left it with every
    earlier record at its index and exactly one record, the new course, after
    them; a POST that ends any other way leaves the file as it was. *)
Theorem no_update_or_delete (v : variant) (w : world) :
  (∀ req, (∀ form, req ≠ ReqAddCourse POST form) →
     course_file (handle v req w).2 = course_file w) ∧
  (∀ form w', add_course v POST form w = (Ok (Redirect "course_catalog"), w') →
     ∃ cs cs', persisted w cs ∧ persisted w' cs' ∧
               (∀ i c, cs !! i = Some c → cs' !! i = Some c) ∧
               length cs' = S (length cs) ∧
               last cs' = Some (course_of_form form)) ∧
  (∀ form r w', add_course v POST form w = (r, w') →
     r ≠ Ok (Redirect "course_catalog") → course_file w' = course_file w).
Proof.
  split_and!.
  - intros [| |code|method form] Hreq; simpl.
    + done.
    + by rewrite course_catalog_world.
    + apply course_details_file.
    + rewrite add_course_get_world; [done|]. intros ->. by apply (Hreq form).
  - intros form w' Hrun.
    destruct (add_course_cases v form w) as [(k & msg & _ & _ & Hrej)|Ha];
      [congruence|].
    destruct (save_courses_cases w (course_of_form form)) as [(cs & Hp & _)|[e He]].
    + rewrite (add_course_saves _ _ _ _ Ha Hp) in Hrun. injection Hrun as <-.
      exists cs, (cs ++ [course_of_form form]). split_and!.
      * done.
      * by right.
      * intros i c Hi. by apply lookup_app_l_Some.
      * rewrite length_app. simpl. lia.
      * apply last_snoc.
    + rewrite (add_course_accepts _ _ _ Ha), (bind_raise _ _ _ _ _ He) in Hrun.
      discriminate.
  - intros form r w' Hrun Hr.
    destruct (add_course_post_file v form w) as [H|(cs & _ & H & _)].
    + by rewrite Hrun in H.
    + rewrite Hrun in H. by injection H as -> _.
Qed.

Lemma no_update_or_delete_witness :
  let first := new_course (Some "Algorithms") (Some "Dr. A") (Some "Fall") (Some "CS301") in
  let w := World (Some (Encoded (PList [first]))) [] in
  let form : gmap string string :=
    {["name" := "Compilers"; "instructor" := "Dr. B";
      "semester" := "Spring"; "code" := "CS302"]} in
  course_file (handle App (ReqCourse "CS301") w).2 = course_file w ∧
  ∃ cs cs', persisted w cs ∧
            persisted (World (Some (Encoded (PList [first; course_of_form form])))
                         [("success", "Course 'Compilers' added successfully!")]) cs' ∧
            (∀ i c, cs !! i = Some c → cs' !! i = Some c) ∧
            length cs' = S (length cs) ∧
            last cs' = Some (course_of_form form).
Proof.
  intros first w form. split.
  - apply (proj1 (no_update_or_delete App w) (ReqCourse "CS301")). discriminate.
  - apply (proj1 (proj2 (no_update_or_delete App w)) form). reflexivity.
Defined.

Lemma truthy_insert_empty_delete (form : gmap string string) k k' :
  truthy (form_value (<[k:=""]> form !! k')) = truthy (form_value (delete k form !! k')).
Proof.
  destruct (decide (k = k')) as [->|Hne].
  - by rewrite lookup_insert_eq, lookup_delete_eq.
  - by rewrite lookup_insert_ne, lookup_delete_ne.
Qed.

Lemma missing_fields_of_truthy n i s c n' i' s' c' :
  truthy (form_value n) = truthy (form_value n') →
  truthy (form_value i) = truthy (form_value i') →
  truthy (form_value s) = truthy (form_value s') →
  truthy (form_value c) = truthy (form_value c') →
  missing_fields_of n i s c = missing_fields_of n' i' s' c'.
Proof. unfold missing_fields_of. by intros -> -> -> ->. Qed.

(** C9. Each validation check is a truthiness test on the submitted value.
    For a key the variant tests, a form that carries the empty string under
    it and the same form without the key get the same outcome, the validation
    failure.  A form that carries a non-empty string under every tested key,
    were it only white space, passes validation: the handler goes on to
    [save_courses]. *)
Theorem validation_is_truthiness (v : variant) (form : gmap string string) (w : world) :
  (∀ k, validated v k →
     add_course v POST (<[k:=""]> form) w = add_course v POST (delete k form) w ∧
     ∃ msg, add_course v POST (delete k form) w
            = (Ok (Redirect "add_course"),
               World (course_file w) (flashes w ++ [("error", msg)]))) ∧
  ((∀ k, validated v k → ∃ s, form !! k = Some s ∧ s ≠ "") →
     add_course v POST form w =
       (save_courses (course_of_form form) ;;;
        flash ("Course '" +:+ format_value (form !! "name") +:+ "' added successfully!")
          "success" ;;;
        ret (Redirect "course_catalog")) w).
Proof.
  split; [|apply add_course_accepts].
  intros k Hk.
  assert (blank (delete k form) k) as Hd by (left; apply lookup_delete_eq).
  assert (blank (<[k:=""]> form) k) as Hi by (right; apply lookup_insert_eq).
  split; cycle 1.
  { destruct (add_course_rejects_blank v (delete k form) w k Hk Hd)
      as (msg & ->). by exists msg. }
  destruct (is_strict v) eqn:Hv.
  - assert (missing_fields_of (<[k:=""]> form !! "name") (<[k:=""]> form !! "instructor")
              (<[k:=""]> form !! "semester") (<[k:=""]> form !! "code")
            = missing_fields_of (delete k form !! "name") (delete k form !! "instructor")
                (delete k form !! "semester") (delete k form !! "code")) as Hm
      by (apply missing_fields_of_truthy; apply truthy_insert_empty_delete).
    assert (missing_fields_of (delete k form !! "name") (delete k form !! "instructor")
              (delete k form !! "semester") (delete k form !! "code") ≠ []) as Hne.
    { intros E%missing_fields_of_nil. apply blank_truthy in Hd.
      destruct Hk as [Hk|[_ Hk]]; key_cases Hk; intuition congruence. }
    rewrite !add_course_strict_rejects; [by rewrite Hm|done|done|done|by rewrite Hm].
  - destruct Hk as [Hk|[? _]]; [|congruence].
    apply blank_truthy in Hd, Hi.
    rewrite !add_course_lenient_rejects; [done|done| |done|];
      key_cases Hk; auto.
Qed.

Lemma validation_is_truthiness_witness :
  let form : gmap string string :=
    {["name" := " "; "instructor" := " "; "semester" := " "; "code" := " "]} in
  add_course App POST (<["code":=""]> form) (World None [])
  = add_course App POST (delete "code" form) (World None []) ∧
  add_course App POST form (World None []) =
    (Ok (Redirect "course_catalog"),
     World (Some (Encoded (PList [course_of_form form])))
       [("success", "Course ' ' added successfully!")]).
Proof.
  intros form. split.
  - apply (proj1 (validation_is_truthiness App form (World None [])) "code").
    right. split; [reflexivity|]. apply elem_of_cons. right. apply elem_of_cons. by left.
  - apply (proj2 (validation_is_truthiness App form (World None []))).
    intros k [Hk|[_ Hk]]; key_cases Hk; (eexists; split; [reflexivity|discriminate]).
Defined.

(** ** Worked scenarios *)

(** Empty store, one submission, then the catalog. *)
Example scenario_add_then_list :
  (add_course App POST
     {["name" := "Algorithms"; "instructor" := "Dr. A";
       "semester" := "Fall"; "code" := "CS301"]} ;;;
   course_catalog App) (World None [])
  = (Ok (Render "course_catalog.html"
           [("courses",
             PList [PDict [("name", PStr "Algorithms"); ("instructor", PStr "Dr. A");
                           ("semester", PStr "Fall"); ("code", PStr "CS301")]])]),
     World (Some (Encoded (PList [PDict [("name", PStr "Algorithms");
                                         ("instructor", PStr "Dr. A");
                                         ("semester", PStr "Fall");
                                         ("code", PStr "CS301")]])))
       [("success", "Course 'Algorithms' added successfully!")]).
Proof. reflexivity. Qed.

(** A code that was never added. *)
Example scenario_unknown_code :
  course_details "CS999"
    (World (Some (Encoded (PList [new_course (Some "Algorithms") (Some "Dr. A")
                                    (Some "Fall") (Some "CS301")]))) [])
  = (Ok (Redirect "course_catalog"),
     World (Some (Encoded (PList [new_course (Some "Algorithms") (Some "Dr. A")
                                    (Some "Fall") (Some "CS301")])))
       [("error", "No course found with code 'CS999'.")]).
Proof. reflexivity. Qed.

(** A submission with the instructor left empty and no code. *)
Example scenario_missing_instructor :
  add_course App POST
    {["name" := "Algorithms"; "instructor" := ""; "semester" := "Fall"]} (World None [])
  = (Ok (Redirect "add_course"),
     World None
       [("error", "Error: The following fields are required: Instructor, Course Code.")]).
Proof. reflexivity. Qed.

(** The search is lazy: a malformed element after the match is never indexed,
    one before it raises. *)
Example scenario_malformed_after_match :
  course_details "A" (World (Some (Encoded (PList [PDict [("code", PStr "A")]; PInt 5]))) [])
  = (Ok (Render "course_details.html" [("course", PDict [("code", PStr "A")])]),
     World (Some (Encoded (PList [PDict [("code", PStr "A")]; PInt 5]))) []).
Proof. reflexivity. Qed.

Example scenario_malformed_before_match :
  course_details "A" (World (Some (Encoded (PList [PInt 5; PDict [("code", PStr "A")]]))) [])
  = (Raise TypeError,
     World (Some (Encoded (PList [PInt 5; PDict [("code", PStr "A")]]))) []).
Proof. reflexivity. Qed.

(** A file that holds a JSON object instead of an array cannot be appended to. *)
Example scenario_save_into_object :
  save_courses (PStr "x") (World (Some (Encoded (PDict []))) [])
  = (Raise AttributeError, World (Some (Encoded (PDict []))) []).
Proof. reflexivity. Qed.

(** ** Further properties of the helpers and routes *)

Lemma load_courses_cases w :
  (∃ doc, load_courses w = (Ok doc, w)) ∨ load_courses w = (Raise JSONDecodeError, w).
Proof.
  destruct (course_file w) as [[raw|doc]|] eqn:H.
  - right. by apply (load_courses_garbage _ raw).
  - left. exists doc. by rewrite (load_courses_present _ _ H).
  - left. exists (PList []). by apply load_courses_absent.
Qed.

Lemma not_persisted_cases w :
  (∀ cs, ¬ persisted w cs) →
  (∃ raw, course_file w = Some (Garbage raw))
  ∨ (∃ doc, course_file w = Some (Encoded doc) ∧ ∀ cs, doc ≠ PList cs).
Proof.
  intros H. destruct (course_file w) as [[raw|doc]|] eqn:E.
  - left. by exists raw.
  - right. exists doc. split; [done|]. intros cs ->. apply (H cs). by right.
  - destruct (H []). by left.
Qed.

Lemma save_courses_not_array w doc data :
  course_file w = Some (Encoded doc) → (∀ cs, doc ≠ PList cs) →
  save_courses data w = (Raise AttributeError, w).
Proof.
  intros H Hdoc. unfold save_courses.
  rewrite (bind_ok _ _ _ _ _ (load_courses_present _ _ H)).
  destruct doc; try reflexivity. by destruct (Hdoc items).
Qed.

(** What [course_details] does once the file parsed to [doc]. *)
Lemma course_details_encoded w doc code :
  course_file w = Some (Encoded doc) →
  course_details code w =
    match py_iter doc with
    | Raise e => (Raise e, w)
    | Ok items =>
        match next_match code items with
        | Raise e => (Raise e, w)
        | Ok course =>
            if truthy course
            then (Ok (Render "course_details.html" [("course", course)]), w)
            else (Ok (Redirect "course_catalog"),
                  World (course_file w)
                    (flashes w ++
                       [("error", "No course found with code '" +:+ code +:+ "'.")]))
        end
    end.
Proof.
  intros H. unfold course_details.
  rewrite (bind_ok _ _ _ _ _ (load_courses_present _ _ H)).
  unfold lift, bind. simpl.
  destruct (py_iter doc) as [items|e]; [|done].
  destruct (next_match code items) as [course|e]; [|done].
  by destruct (truthy course).
Qed.

(** A search that found a record found the first one that matches. *)
Lemma next_match_found_inv code items c :
  next_match code items = Ok c → c ≠ PNone →
  ∃ i, items !! i = Some c ∧ code_is c code ∧
       ∀ j c', j < i → items !! j = Some c' → skipped code c'.
Proof.
  induction items as [|c0 items IH]; simpl; [by intros [= <-]|].
  destruct (py_getitem c0 "code") as [x|e] eqn:E; [|discriminate].
  destruct (py_eq_str x code) eqn:Q.
  - intros [= <-] _. exists 0. apply py_eq_str_true in Q. subst x.
    split_and!; [done|exact E|intros j c' Hj; lia].
  - intros Hrun Hne. destruct (IH Hrun Hne) as (i & Hi & Hc & Hpre).
    exists (S i). split_and!; [done|done|].
    intros [|j] c' Hj Hc'.
    + injection Hc' as <-. split; [by exists x|].
      unfold code_is. rewrite E. intros [= ->].
      apply py_eq_str_false in Q. by apply Q.
    + apply (Hpre j); [lia|done].
Qed.

Lemma truthy_not_none c : truthy c = true → c ≠ PNone.
Proof. by intros H ->. Qed.

(** A string is no record: the search stops on it. *)
Lemma next_match_str code s rest :
  next_match code (PStr s :: rest) = Raise TypeError.
Proof. reflexivity. Qed.

Lemma next_match_app_none code items extra :
  next_match code items = Ok PNone →
  next_match code (items ++ extra) = next_match code extra.
Proof. intros H. by apply next_match_skip, next_match_none_inv. Qed.

Lemma next_match_app_decided code items extra r :
  next_match code items = r → r ≠ Ok PNone →
  next_match code (items ++ extra) = r.
Proof.
  induction items as [|c0 items IH]; simpl; [congruence|].
  destruct (py_getitem c0 "code") as [x|e] eqn:E; [|done].
  destruct (py_eq_str x code); [done|exact IH].
Qed.

Lemma next_match_has_code code items :
  Forall has_code items → ∃ c, next_match code items = Ok c.
Proof.
  induction 1 as [|c0 cs [x Hx] _ IH]; simpl; [by eexists|].
  rewrite Hx. destruct (py_eq_str x code); [by eexists|exact IH].
Qed.

(** X1. [save_courses] writes only into an array.  When the file holds
    unparsable text it raises [JSONDecodeError]; when the file holds valid
    JSON that is not an array (an object, a string, a number, [null]) the
    [append] raises [AttributeError].  Either way nothing was written: the
    world is as it was. *)
Theorem save_courses_failure (w : world) (data : pyval) :
  (∀ cs, ¬ persisted w cs) →
  ∃ e, save_courses data w = (Raise e, w) ∧
       (e = JSONDecodeError ↔ ∃ raw, course_file w = Some (Garbage raw)) ∧
       (e = AttributeError ↔ ∃ doc, course_file w = Some (Encoded doc)).
Proof.
  intros H. destruct (not_persisted_cases w H) as [[raw E]|(doc & E & Hdoc)].
  - exists JSONDecodeError. split_and!.
    + unfold save_courses. by rewrite (bind_raise _ _ _ _ _ (load_courses_garbage _ _ E)).
    + split; [by exists raw|done].
    + split; [done|]. intros [doc Hd]. congruence.
  - exists AttributeError. split_and!.
    + by eapply save_courses_not_array.
    + split; [done|]. intros [raw Hr]. congruence.
    + split; [by exists doc|done].
Qed.

Lemma save_courses_failure_witness :
  ∃ e, save_courses (PStr "x") (World (Some (Encoded (PDict [("a", PInt 1)]))) [])
       = (Raise e, World (Some (Encoded (PDict [("a", PInt 1)]))) []) ∧
       (e = JSONDecodeError ↔
          ∃ raw, course_file (World (Some (Encoded (PDict [("a", PInt 1)]))) [])
                 = Some (Garbage raw)) ∧
       (e = AttributeError ↔
          ∃ doc, course_file (World (Some (Encoded (PDict [("a", PInt 1)]))) [])
                 = Some (Encoded doc)).
Proof.
  apply (save_courses_failure (World (Some (Encoded (PDict [("a", PInt 1)]))) []) (PStr "x")).
  intros cs [[H _]|H]; discriminate.
Defined.

(** X2. [course_catalog] hands the template whatever value the file parsed
    to, array or not.  The variants that record [len(courses)] on their span
    ([app2.py], [app3.py], [app_jaeger.py]) raise [TypeError] instead exactly
    when that value has no length ([null], a boolean, a number); [app.py] and
    [jaeger_trail.py] never do.  The world is untouched either way. *)
Theorem course_catalog_renders_loaded (v : variant) (w : world) (doc : pyval) :
  course_file w = Some (Encoded doc) →
  (course_catalog v w = (Ok (Render "course_catalog.html" [("courses", doc)]), w)
   ↔ counts_courses v = false ∨ ∃ n, py_len doc = Ok n) ∧
  (course_catalog v w = (Raise TypeError, w)
   ↔ counts_courses v = true ∧
     (doc = PNone ∨ (∃ b, doc = PBool b) ∨ (∃ n, doc = PInt n) ∨ (∃ r, doc = PFloat r))).
Proof.
  intros H. unfold course_catalog.
  rewrite (bind_ok _ _ _ _ _ (load_courses_present _ _ H)). simpl.
  destruct (counts_courses v); simpl.
  - destruct doc as [|b|z|r|s|items|entries]; simpl; (split; split;
      [ intros Hx; try discriminate; right; by eexists
      | intros [Hx|[m Hx]]; try discriminate; reflexivity
      | intros Hx; try discriminate; split; eauto 6
      | intros [_ [Hx|[[? Hx]|[[? Hx]|[? Hx]]]]]; try discriminate; reflexivity ]).
  - split; split; [by left|done|discriminate|by intros [? _]].
Qed.

Lemma course_catalog_renders_loaded_witness :
  course_catalog App (World (Some (Encoded (PInt 7))) [])
    = (Ok (Render "course_catalog.html" [("courses", PInt 7)]),
       World (Some (Encoded (PInt 7))) []) ∧
  course_catalog AppJaeger (World (Some (Encoded (PInt 7))) [])
    = (Raise TypeError, World (Some (Encoded (PInt 7))) []).
Proof.
  split.
  - apply (proj1 (course_catalog_renders_loaded App
                    (World (Some (Encoded (PInt 7))) []) (PInt 7) eq_refl)).
    by left.
  - apply (proj2 (course_catalog_renders_loaded AppJaeger
                    (World (Some (Encoded (PInt 7))) []) (PInt 7) eq_refl)).
    split; [reflexivity|]. right. right. left. by exists 7%Z.
Defined.

(** X3. [course_details] renders nothing but a stored record with the code
    asked for.  Whenever it answers with a page, in any world, the file holds
    an array, the page is the details template, and the course passed to it
    is the element at the first index whose ['code'] is the requested string,
    every element before it having been passed over; the world is unchanged. *)
Theorem course_details_render_inv
    (code : string) (w w' : world) (t : string) (ctx : list (string * pyval)) :
  course_details code w = (Ok (Render t ctx), w') →
  w' = w ∧ t = "course_details.html" ∧
  ∃ cs i c, course_file w = Some (Encoded (PList cs)) ∧
            ctx = [("course", c)] ∧
            cs !! i = Some c ∧ code_is c code ∧
            ∀ j c', j < i → cs !! j = Some c' → skipped code c'.
Proof.
  destruct (course_file w) as [[raw|doc]|] eqn:H.
  - unfold course_details.
    by rewrite (bind_raise _ _ _ _ _ (load_courses_garbage _ _ H)).
  - rewrite (course_details_encoded _ _ _ H).
    destruct doc as [| | | |s|items|entries]; simpl; try discriminate.
    + destruct s; simpl; discriminate.
    + destruct (next_match code items) as [course|e] eqn:E; [|discriminate].
      destruct (truthy course) eqn:T; [|discriminate].
      intros [= <- <- <-].
      destruct (next_match_found_inv _ _ _ E (truthy_not_none _ T))
        as (i & Hi & Hc & Hpre).
      split_and!; [done..|]. by exists items, i, course.
    + destruct entries as [|[k x] entries]; simpl; discriminate.
  - assert (persisted w []) as Hp by by left.
    rewrite (course_details_run _ _ _ Hp). simpl. discriminate.
Qed.

Lemma course_details_render_inv_witness :
  let first := new_course (Some "Algorithms") (Some "Dr. A") (Some "Fall") (Some "CS301") in
  let w := World (Some (Encoded (PList [PDict [("code", PInt 301)]; first]))) [] in
  w = w ∧ "course_details.html" = "course_details.html" ∧
  ∃ cs i c, course_file w = Some (Encoded (PList cs)) ∧
            [("course", first)] = [("course", c)] ∧
            cs !! i = Some c ∧ code_is c "CS301" ∧
            ∀ j c', j < i → cs !! j = Some c' → skipped "CS301" c'.
Proof.
  intros first w.
  apply (course_details_render_inv "CS301" w w "course_details.html" [("course", first)]).
  reflexivity.
Defined.

(** X4. Over a persisted array, [course_details] answers not-found (the
    redirect to the catalog) exactly when the search passed over every
    element: each is a record with a ['code'] entry, none equal to the string
    asked for.  A code stored as a number is never equal to the code of a
    request. *)
Theorem course_details_not_found_iff (w : world) (cs : list pyval) (code : string) :
  persisted w cs →
  ((course_details code w).1 = Ok (Redirect "course_catalog")
   ↔ Forall (skipped code) cs).
Proof.
  intros Hp. rewrite (course_details_run _ _ _ Hp). split.
  - destruct (next_match code cs) as [course|e] eqn:E; [|discriminate].
    destruct (truthy course) eqn:T; [discriminate|]. intros _.
    assert (course = PNone ∨ course ≠ PNone) as [->|Hne]
      by (destruct course; auto; right; discriminate).
    + by apply next_match_none_inv.
    + apply (next_match_some_inv _ _ _ E), code_is_truthy in Hne. congruence.
  - intros Hall. by rewrite next_match_none.
Qed.

Lemma course_details_not_found_iff_witness :
  (course_details "301" (World (Some (Encoded (PList [PDict [("code", PInt 301)]]))) [])).1
  = Ok (Redirect "course_catalog")
  ↔ Forall (skipped "301") [PDict [("code", PInt 301)]].
Proof.
  apply (course_details_not_found_iff
           (World (Some (Encoded (PList [PDict [("code", PInt 301)]]))) [])).
  right. reflexivity.
Defined.

(** X5. When the file holds valid JSON that is not an array,
    [course_details] iterates over it all the same: over the keys of an
    object, over the characters of a string.  The first key or character is a
    string, which cannot be indexed with ['code'], so the handler raises
    [TypeError]; as it does for [null], a boolean or a number, which cannot be
    iterated.  Only the empty object and the empty string give not-found. *)
Theorem course_details_not_array (w : world) (doc : pyval) (code : string) :
  course_file w = Some (Encoded doc) → (∀ cs, doc ≠ PList cs) →
  (doc = PDict [] ∨ doc = PStr "" →
     course_details code w
     = (Ok (Redirect "course_catalog"),
        World (course_file w)
          (flashes w ++ [("error", "No course found with code '" +:+ code +:+ "'.")]))) ∧
  (doc ≠ PDict [] → doc ≠ PStr "" →
     course_details code w = (Raise TypeError, w)).
Proof.
  intros H Hdoc. rewrite (course_details_encoded _ _ _ H). split.
  - by intros [-> | ->].
  - intros Hd Hs. destruct doc as [| | | |s|items|entries]; simpl; try done.
    + by destruct s.
    + by destruct (Hdoc items).
    + by destruct entries as [|[k x] entries].
Qed.

Lemma course_details_not_array_witness :
  course_details "CS301"
    (World (Some (Encoded (PDict [("CS301", PStr "Algorithms")]))) [])
  = (Raise TypeError, World (Some (Encoded (PDict [("CS301", PStr "Algorithms")]))) []).
Proof.
  apply (proj2 (course_details_not_array
                  (World (Some (Encoded (PDict [("CS301", PStr "Algorithms")]))) [])
                  (PDict [("CS301", PStr "Algorithms")]) "CS301" eq_refl
                  ltac:(discriminate))); discriminate.
Defined.

(** X7. A POST to [/add_course] that returns a response returns one of two,
    each with exactly one new notice.  The redirect to the form comes with an
    error notice, only when a tested field is blank, and the file is as it
    was.  The redirect to the catalog comes with the success notice that
    quotes the submitted name, only when every tested field is filled, and
    the file then holds the earlier array followed by the record built from
    the four form values.  The form is never rendered in answer to a POST. *)
Theorem add_course_post_outcome
    (v : variant) (form : gmap string string) (w w' : world) (r : response) :
  add_course v POST form w = (Ok r, w') →
  (r = Redirect "add_course" ∧
   (∃ k, validated v k ∧ blank form k) ∧
   course_file w' = course_file w ∧
   ∃ msg, flashes w' = flashes w ++ [("error", msg)])
  ∨
  (r = Redirect "course_catalog" ∧
   accepted v form ∧
   flashes w' = flashes w ++
     [("success", "Course '" +:+ format_value (form !! "name") +:+ "' added successfully!")] ∧
   ∃ cs, persisted w cs ∧
         course_file w' = Some (Encoded (PList (cs ++ [course_of_form form])))).
Proof.
  destruct (add_course_cases v form w) as [(k & msg & Hk & Hb & ->)|Ha].
  - intros [= <- <-]. left. split_and!; [done|by exists k|done|by exists msg].
  - destruct (save_courses_cases w (course_of_form form)) as [(cs & Hp & _)|[e He]].
    + rewrite (add_course_saves _ _ _ _ Ha Hp). intros [= <- <-].
      right. split_and!; [done..|]. by exists cs.
    + rewrite (add_course_accepts _ _ _ Ha), (bind_raise _ _ _ _ _ He). discriminate.
Qed.

Lemma add_course_post_outcome_witness :
  let form : gmap string string := {["name" := "Algorithms"; "instructor" := "Dr. A"]} in
  let w' := World (Some (Encoded (PList [course_of_form form])))
              [("success", "Course 'Algorithms' added successfully!")] in
  (Redirect "course_catalog" = Redirect "add_course" ∧
   (∃ k, validated App3 k ∧ blank form k) ∧
   course_file w' = course_file (World None []) ∧
   ∃ msg, flashes w' = flashes (World None []) ++ [("error", msg)])
  ∨
  (Redirect "course_catalog" = Redirect "course_catalog" ∧
   accepted App3 form ∧
   flashes w' = flashes (World None []) ++
     [("success", "Course '" +:+ format_value (form !! "name") +:+ "' added successfully!")] ∧
   ∃ cs, persisted (World None []) cs ∧
         course_file w' = Some (Encoded (PList (cs ++ [course_of_form form])))).
Proof.
  intros form w'.
  apply (add_course_post_outcome App3 form (World None []) w' (Redirect "course_catalog")).
  reflexivity.
Defined.

Lemma course_of_form_code form :
  py_getitem (course_of_form form) "code" = Ok (form_value (form !! "code")).
Proof. reflexivity. Qed.

Lemma course_of_form_has_code form : has_code (course_of_form form).
Proof. eexists. apply course_of_form_code. Qed.

(** The outcome of [course_details], without the world. *)
Lemma course_details_result w cs code :
  persisted w cs →
  (course_details code w).1 =
    match next_match code cs with
    | Raise e => Raise e
    | Ok course =>
        if truthy course
        then Ok (Render "course_details.html" [("course", course)])
        else Ok (Redirect "course_catalog")
    end.
Proof.
  intros Hp. rewrite (course_details_run _ _ _ Hp).
  destruct (next_match code cs) as [course|e]; [|done].
  by destruct (truthy course).
Qed.

(** X8. Add, then look up.  When no stored record has the code of an
    accepted submission (the search passes over all of them), the course page
    for that code, requested right after the submission, shows the record just
    saved. *)
Theorem add_then_lookup
    (v : variant) (form : gmap string string) (w : world) (cs : list pyval)
    (code : string) :
  persisted w cs → accepted v form → form !! "code" = Some code →
  Forall (skipped code) cs →
  ∃ w1, add_course v POST form w = (Ok (Redirect "course_catalog"), w1) ∧
        course_details code w1
        = (Ok (Render "course_details.html" [("course", course_of_form form)]), w1).
Proof.
  intros Hp Ha Hcode Hcs. eexists. split; [by apply add_course_saves|].
  rewrite (course_details_run _ (cs ++ [course_of_form form])); [|by right].
  rewrite next_match_found; [done|done|].
  unfold code_is. by rewrite course_of_form_code, Hcode.
Qed.

Lemma add_then_lookup_witness :
  let form : gmap string string :=
    {["name" := "Compilers"; "instructor" := "Dr. B";
      "semester" := "Spring"; "code" := "CS302"]} in
  let w := World (Some (Encoded (PList [new_course (Some "Algorithms") (Some "Dr. A")
                                          (Some "Fall") (Some "CS301")]))) [] in
  ∃ w1, add_course JaegerTrail POST form w = (Ok (Redirect "course_catalog"), w1) ∧
        course_details "CS302" w1
        = (Ok (Render "course_details.html" [("course", course_of_form form)]), w1).
Proof.
  intros form w.
  apply (add_then_lookup JaegerTrail form w
           [new_course (Some "Algorithms") (Some "Dr. A") (Some "Fall") (Some "CS301")]
           "CS302").
  - right. reflexivity.
  - intros k [Hk|[_ Hk]]; key_cases Hk; (eexists; split; [reflexivity|discriminate]).
  - reflexivity.
  - repeat constructor.
    + by exists (PStr "CS301").
    + intros [=].
Defined.

(** X9. A later submission never displaces an earlier answer.  If a course
    page showed a record, or raised, before a successful [add_course], it
    gives the same record, or raises the same exception, after it: the new
    record goes to the end and the search stops before it.  In particular a
    course added under a code that is already taken is never shown. *)
Theorem lookup_stable_under_add
    (v : variant) (form : gmap string string) (w w1 : world) (code : string)
    (r : result response) :
  add_course v POST form w = (Ok (Redirect "course_catalog"), w1) →
  (course_details code w).1 = r → r ≠ Ok (Redirect "course_catalog") →
  (course_details code w1).1 = r.
Proof.
  intros Hadd Hr Hne.
  destruct (add_course_post_file v form w) as [Hf|(cs & Hp & Hs & _)].
  - destruct (add_course_cases v form w) as [(k & msg & _ & _ & Hrej)|Ha];
      [congruence|].
    destruct (save_courses_cases w (course_of_form form)) as [(cs & Hp & _)|[e He]].
    + rewrite (add_course_saves _ _ _ _ Ha Hp) in Hadd, Hf.
      injection Hadd as <-. simpl in Hf.
      destruct Hp as [[Hp _]|Hp]; rewrite Hp in Hf; [discriminate|].
      injection Hf as Hf. apply (f_equal length) in Hf.
      rewrite length_app in Hf. simpl in Hf. lia.
    + rewrite (add_course_accepts _ _ _ Ha), (bind_raise _ _ _ _ _ He) in Hadd.
      discriminate.
  - rewrite Hs in Hadd. injection Hadd as <-.
    rewrite (course_details_result _ _ _ Hp) in Hr.
    rewrite (course_details_result _ (cs ++ [course_of_form form])); [|by right].
    rewrite (next_match_app_decided code cs _ (next_match code cs)); [done|done|].
    intros E. rewrite E in Hr. simpl in Hr. congruence.
Qed.

Lemma lookup_stable_under_add_witness :
  let first := new_course (Some "Algorithms") (Some "Dr. A") (Some "Fall") (Some "CS301") in
  let w := World (Some (Encoded (PList [first]))) [] in
  let form : gmap string string :=
    {["name" := "Compilers"; "instructor" := "Dr. B";
      "semester" := "Spring"; "code" := "CS301"]} in
  (course_details "CS301"
     (World (Some (Encoded (PList [first; course_of_form form])))
        [("success", "Course 'Compilers' added successfully!")])).1
  = Ok (Render "course_details.html" [("course", first)]).
Proof.
  intros first w form.
  apply (lookup_stable_under_add App form w).
  - reflexivity.
  - reflexivity.
  - discriminate.
Defined.

(** X10. The lenient variants ([app2.py], [app3.py]) save a submission that
    has no code, with [None] for its code.  Such a record is out of reach of
    the course page: after the submission every code gets the answer it got
    before, since [None] equals no requested code. *)
Theorem codeless_course_unreachable
    (v : variant) (form : gmap string string) (w : world) (cs : list pyval) :
  is_strict v = false → filled form "name" → filled form "instructor" →
  form !! "code" = None → persisted w cs →
  ∃ w1, add_course v POST form w = (Ok (Redirect "course_catalog"), w1) ∧
        persisted w1 (cs ++ [course_of_form form]) ∧
        ∀ code, (course_details code w1).1 = (course_details code w).1.
Proof.
  intros Hv Hn Hi Hcode Hp.
  assert (accepted v form) as Ha.
  { intros k [Hk|[? _]]; [key_cases Hk; done|congruence]. }
  eexists. split; [by apply add_course_saves|]. split; [by right|].
  intros code. rewrite (course_details_result _ _ _ Hp).
  rewrite (course_details_result _ (cs ++ [course_of_form form])); [|by right].
  destruct (next_match code cs) as [course|e] eqn:E.
  - assert (course = PNone ∨ course ≠ PNone) as [->|Hne]
      by (destruct course; auto; right; discriminate).
    + rewrite (next_match_app_none _ _ _ E). simpl.
      unfold course_of_form. rewrite Hcode. reflexivity.
    + rewrite (next_match_app_decided _ _ _ _ E); [done|congruence].
  - by rewrite (next_match_app_decided _ _ _ _ E).
Qed.

Lemma codeless_course_unreachable_witness :
  let form : gmap string string := {["name" := "Algorithms"; "instructor" := "Dr. A"]} in
  ∃ w1, add_course App2 POST form (World None []) = (Ok (Redirect "course_catalog"), w1) ∧
        persisted w1 ([] ++ [course_of_form form]) ∧
        ∀ code, (course_details code w1).1 = (course_details code (World None [])).1.
Proof.
  intros form.
  apply (codeless_course_unreachable App2 form (World None []) []).
  - reflexivity.
  - exists "Algorithms". split; [reflexivity|discriminate].
  - exists "Dr. A". split; [reflexivity|discriminate].
  - reflexivity.
  - left. split; reflexivity.
Defined.

Lemma persisted_file w w' cs :
  course_file w' = course_file w → persisted w cs → persisted w' cs.
Proof. unfold persisted. by intros ->. Qed.

Lemma passes_accepted v form : passes v form = true ↔ accepted v form.
Proof.
  unfold passes, accepted. split.
  - intros H k Hk. apply filled_truthy.
    apply andb_true_iff in H as [H Hrest]. apply andb_true_iff in H as [Hn Hi].
    destruct Hk as [Hk|[Hv Hk]]; [key_cases Hk; done|].
    rewrite Hv in Hrest. simpl in Hrest. apply andb_true_iff in Hrest as [Hs Hc].
    key_cases Hk; done.
  - intros H.
    assert (∀ k, validated v k → truthy (form_value (form !! k)) = true) as Ht.
    { intros k Hk. by apply filled_truthy, H. }
    rewrite (Ht "name"), (Ht "instructor");
      [|left; apply elem_of_cons; right; apply elem_of_cons; by left
       |left; apply elem_of_cons; by left].
    destruct (is_strict v) eqn:Hv; [|done]. simpl.
    rewrite (Ht "semester"), (Ht "code"); [done| |].
    + right. split; [done|]. apply elem_of_cons; right; apply elem_of_cons; by left.
    + right. split; [done|]. apply elem_of_cons; by left.
Qed.

(** One request on an array store: the store stays, or grows by the record
    of an accepted form. *)
Lemma handle_store_step v req w cs r w' :
  persisted w cs → handle v req w = (r, w') →
  persisted w' cs
  ∨ ∃ form, req = ReqAddCourse POST form ∧ accepted v form ∧
            persisted w' (cs ++ [course_of_form form]).
Proof.
  intros Hp Hrun.
  destruct req as [| |code|method form]; simpl in Hrun.
  - left. by injection Hrun as _ <-.
  - left. pose proof (course_catalog_world v w) as Hw. rewrite Hrun in Hw.
    simpl in Hw. by subst w'.
  - left. pose proof (course_details_file code w) as Hw. rewrite Hrun in Hw.
    by apply (persisted_file w).
  - assert (method = POST ∨ method ≠ POST) as [->|Hm]
      by (destruct method; auto; right; discriminate); cycle 1.
    { left. pose proof (add_course_get_world v method form w Hm) as Hw.
      rewrite Hrun in Hw. simpl in Hw. by subst w'. }
    destruct (add_course_post_file v form w) as [Hf|(cs0 & Hp0 & Hs & Ha)].
    + left. rewrite Hrun in Hf. by apply (persisted_file w).
    + right. exists form. split; [done|]. split; [done|].
      rewrite (add_course_saves _ _ _ _ Ha Hp) in Hrun. injection Hrun as _ <-.
      by right.
Qed.

Lemma serve_cons v req rest w :
  serve v (req :: rest) w =
    match handle v req w with
    | (Ok r, w1) =>
        match serve v rest w1 with
        | (Ok rs, w2) => (Ok (r :: rs), w2)
        | (Raise e, w2) => (Raise e, w2)
        end
    | (Raise e, w1) => (Raise e, w1)
    end.
Proof.
  simpl. unfold bind. destruct (handle v req w) as [[r|e] w1]; [|done].
  by destruct (serve v rest w1) as [[rs|e] w2].
Qed.

(** X11. The application cannot break a store it can read.  If the file is
    an array (or absent) whose elements all are records with a ['code'] entry,
    then any run of requests, in any variant, is served to the end without an
    exception, one response per request, and leaves a store of that kind. *)
Theorem serve_healthy (v : variant) (reqs : list request) (w : world) :
  healthy w →
  ∃ rs w', serve v reqs w = (Ok rs, w') ∧ length rs = length reqs ∧ healthy w'.
Proof.
  revert w. induction reqs as [|req rest IH]; intros w Hw.
  { by exists [], w. }
  assert (∃ r w1, handle v req w = (Ok r, w1) ∧ healthy w1) as (r & w1 & Hr & Hw1).
  { destruct Hw as (cs & Hp & Hcs).
    destruct req as [| |code|method form]; simpl.
    - eexists _, w. split; [done|]. by exists cs.
    - eexists _, w. split; [by apply course_catalog_persisted|]. by exists cs.
    - rewrite (course_details_run _ _ _ Hp).
      destruct (next_match_has_code code cs Hcs) as [c ->].
      destruct (truthy c); eexists _, _; (split; [done|]); exists cs;
        (split; [|done]); [done|by apply (persisted_file w)].
    - assert (method = POST ∨ method ≠ POST) as [->|Hm]
      by (destruct method; auto; right; discriminate); cycle 1.
      { exists (Render "add_course.html" []), w. split; [by destruct method|].
        by exists cs. }
      destruct (add_course_cases v form w) as [(k & msg & _ & _ & ->)|Ha].
      + eexists _, _. split; [done|]. exists cs. split; [|done].
        by apply (persisted_file w).
      + eexists _, _. split; [by apply add_course_saves|].
        exists (cs ++ [course_of_form form]). split; [by right|].
        apply Forall_app. split; [done|].
        apply Forall_singleton, course_of_form_has_code. }
  destruct (IH w1 Hw1) as (rs & w' & Hrs & Hlen & Hw').
  exists (r :: rs), w'. rewrite serve_cons, Hr, Hrs. simpl. by rewrite Hlen.
Qed.

Lemma serve_healthy_witness :
  let reqs :=
    [ReqCourse "CS301";
     ReqAddCourse POST {["name" := "Algorithms"; "instructor" := "Dr. A";
                         "semester" := "Fall"; "code" := "CS301"]};
     ReqCatalog; ReqCourse "CS301"] in
  ∃ rs w', serve App reqs (World None []) = (Ok rs, w') ∧
           length rs = length reqs ∧ healthy w'.
Proof.
  intros reqs. apply (serve_healthy App reqs (World None [])).
  exists []. split; [left; split; reflexivity|constructor].
Defined.

Lemma accepted_strict_complete v form :
  is_strict v = true → accepted v form → complete (course_of_form form).
Proof.
  intros Hv Ha.
  destruct (Ha "name") as (n & Hn & Hn');
    [left; apply elem_of_cons; by left|].
  destruct (Ha "instructor") as (i & Hi & Hi');
    [left; apply elem_of_cons; right; apply elem_of_cons; by left|].
  destruct (Ha "semester") as (s & Hs & Hs');
    [right; split; [done|]; apply elem_of_cons; by left|].
  destruct (Ha "code") as (k & Hk & Hk');
    [right; split; [done|]; apply elem_of_cons; right; apply elem_of_cons; by left|].
  exists n, i, s, k. unfold course_of_form. by rewrite Hn, Hi, Hs, Hk.
Qed.

(** X12. What the four checks of the strict variants ([app.py],
    [app_jaeger.py], [jaeger_trail.py]) buy: if every stored record consists
    of four non-empty strings, it still does after any run of requests,
    however the run ends.  From an empty store, every record these variants
    ever hold has a non-empty name, instructor, semester and code. *)
Theorem strict_store_complete
    (v : variant) (reqs : list request) (w w' : world) (cs : list pyval)
    (r : result (list response)) :
  is_strict v = true → persisted w cs → Forall complete cs →
  serve v reqs w = (r, w') →
  ∃ cs', persisted w' cs' ∧ Forall complete cs'.
Proof.
  intros Hv. revert w cs r w'.
  induction reqs as [|req rest IH]; intros w cs r w' Hp Hcs Hrun.
  { injection Hrun as _ <-. by exists cs. }
  rewrite serve_cons in Hrun.
  destruct (handle v req w) as [r1 w1] eqn:H1.
  assert (∃ cs1, persisted w1 cs1 ∧ Forall complete cs1) as (cs1 & Hp1 & Hcs1).
  { destruct (handle_store_step _ _ _ _ _ _ Hp H1) as [Hs|(form & _ & Ha & Hs)].
    - by exists cs.
    - exists (cs ++ [course_of_form form]). split; [done|].
      apply Forall_app. split; [done|].
      apply Forall_singleton. by apply (accepted_strict_complete v). }
  destruct r1 as [r1|e]; cycle 1.
  { injection Hrun as _ <-. by exists cs1. }
  destruct (serve v rest w1) as [r2 w2] eqn:H2.
  destruct (IH _ _ _ _ Hp1 Hcs1 H2) as (cs2 & Hp2 & Hcs2).
  exists cs2. destruct r2; injection Hrun as _ <-; done.
Qed.

Lemma strict_store_complete_witness :
  let reqs :=
    [ReqAddCourse POST {["name" := "Algorithms"; "instructor" := "Dr. A";
                         "semester" := "Fall"; "code" := "CS301"]};
     ReqAddCourse POST {["name" := "Compilers"; "instructor" := "Dr. B"]};
     ReqCatalog] in
  ∃ cs', persisted (serve AppJaeger reqs (World None [])).2 cs' ∧ Forall complete cs'.
Proof.
  intros reqs.
  apply (strict_store_complete AppJaeger reqs (World None [])
           (serve AppJaeger reqs (World None [])).2 []
           (serve AppJaeger reqs (World None [])).1).
  - reflexivity.
  - left. split; reflexivity.
  - constructor.
  - reflexivity.
Defined.

Lemma add_course_post_persisted v form w cs :
  persisted w cs →
  ∃ w', add_course v POST form w = (Ok (post_response v form), w') ∧
        persisted w' (if passes v form then cs ++ [course_of_form form] else cs).
Proof.
  intros Hp. unfold post_response.
  destruct (passes v form) eqn:P.
  - apply passes_accepted in P. eexists. split; [by apply add_course_saves|by right].
  - destruct (add_course_cases v form w) as [(k & msg & _ & _ & ->)|Ha].
    + eexists. split; [done|]. by apply (persisted_file w).
    + apply passes_accepted in Ha. congruence.
Qed.

(** X13. A run of submissions over an array store never raises, whatever
    the forms are.  Each form gets the redirect to the catalog when it passes
    the tests of the variant and the redirect back to the form when it does
    not, and the store afterwards is the earlier array followed by the
    records of the forms that passed, in call order; a form that was turned
    away leaves no record. *)
Theorem add_all_mixed
    (v : variant) (forms : list (gmap string string)) (w : world) (cs : list pyval) :
  persisted w cs →
  ∃ w', add_all v forms w = (Ok (post_response v <$> forms), w') ∧
        persisted w'
          (cs ++ (course_of_form <$> filter (λ form, passes v form = true) forms)).
Proof.
  revert w cs. induction forms as [|form forms IH]; intros w cs Hp.
  { exists w. split; [done|]. by rewrite app_nil_r. }
  destruct (add_course_post_persisted v form w cs Hp) as (w1 & Hadd & Hp1).
  destruct (IH _ _ Hp1) as (w' & Hrun & Hp').
  exists w'. split.
  - simpl. by rewrite (bind_ok _ _ _ _ _ Hadd), (bind_ok _ _ _ _ _ Hrun).
  - rewrite filter_cons. destruct (passes v form) eqn:P.
    + rewrite decide_True by done.
      by rewrite fmap_cons, cons_middle, app_assoc.
    + rewrite decide_False by congruence. done.
Qed.

Lemma add_all_mixed_witness :
  let forms : list (gmap string string) :=
    [ {["name" := "Algorithms"; "instructor" := "Dr. A";
        "semester" := "Fall"; "code" := "CS301"]};
      {["name" := "Compilers"; "instructor" := ""]};
      {["name" := "Logic"; "instructor" := "Dr. C";
        "semester" := "Fall"; "code" := "CS303"]} ] in
  ∃ w', add_all App forms (World None []) = (Ok (post_response App <$> forms), w') ∧
        persisted w'
          ([] ++ (course_of_form <$> filter (λ form, passes App form = true) forms)).
Proof.
  intros forms. apply (add_all_mixed App forms (World None []) []).
  left. split; reflexivity.
Defined.

(** X14. The entry points are interchangeable where their checks agree.
    Over an array store two variants give the same response and leave the same
    world on a request, provided they are both strict or both lenient, or the
    request is not a POST, or the POSTed form has a non-empty name,
    instructor, semester and code.  The catalog of [jaeger_trail.py] is left
    out: it hands its template a [processing_time] that the other variants do
    not pass. *)
Theorem variants_agree
    (v1 v2 : variant) (req : request) (w : world) (cs : list pyval) :
  persisted w cs →
  (req = ReqCatalog → v1 ≠ JaegerTrail ∧ v2 ≠ JaegerTrail) →
  is_strict v1 = is_strict v2
  ∨ (∀ form, req = ReqAddCourse POST form →
       Forall (filled form) ["name"; "instructor"; "semester"; "code"]) →
  handle v1 req w = handle v2 req w.
Proof.
  intros Hp _ Hagree.
  destruct req as [| |code|method form]; simpl.
  - done.
  - by rewrite !(course_catalog_persisted _ _ _ Hp).
  - done.
  - destruct method; try done.
    destruct Hagree as [Hs|Hf].
    + unfold add_course. by rewrite Hs.
    + specialize (Hf form eq_refl).
      assert (∀ v, accepted v form) as Ha.
      { intros v k Hk. rewrite Forall_forall in Hf. apply Hf.
        destruct Hk as [Hk|[_ Hk]]; key_cases Hk;
          rewrite !elem_of_cons; auto. }
      by rewrite !add_course_accepts.
Qed.

Lemma variants_agree_witness :
  let form : gmap string string :=
    {["name" := "Algorithms"; "instructor" := "Dr. A";
      "semester" := "Fall"; "code" := "CS301"]} in
  handle JaegerTrail (ReqAddCourse POST form) (World None [])
  = handle App3 (ReqAddCourse POST form) (World None []) ∧
  handle App ReqCatalog (World (Some (Encoded (PList [course_of_form form]))) [])
  = handle AppJaeger ReqCatalog (World (Some (Encoded (PList [course_of_form form]))) []).
Proof.
  intros form. split.
  - apply (variants_agree JaegerTrail App3 (ReqAddCourse POST form) (World None []) []).
    + left. split; reflexivity.
    + discriminate.
    + right. intros form' [= <-].
      repeat constructor; (eexists; split; [reflexivity|discriminate]).
  - apply (variants_agree App AppJaeger ReqCatalog
             (World (Some (Encoded (PList [course_of_form form]))) [])
             [course_of_form form]).
    + right. reflexivity.
    + intros _. split; discriminate.
    + left. reflexivity.
Defined.

(** X15. The store only grows, and only by accepted submissions.  After any
    run of requests over an array store, whether the run is served to the end
    or stopped by an exception, the file holds the earlier array followed by
    the records of some of the forms POSTed in the run, in request order, each
    of which passed the tests of the variant. *)
Theorem serve_store_grows
    (v : variant) (reqs : list request) (w w' : world) (cs : list pyval)
    (r : result (list response)) :
  persisted w cs → serve v reqs w = (r, w') →
  ∃ forms, persisted w' (cs ++ (course_of_form <$> forms)) ∧
           forms `sublist_of` posted reqs ∧
           Forall (accepted v) forms.
Proof.
  revert w cs r w'.
  induction reqs as [|req rest IH]; intros w cs r w' Hp Hrun.
  { injection Hrun as _ <-. exists []. by rewrite app_nil_r. }
  rewrite serve_cons in Hrun.
  destruct (handle v req w) as [r1 w1] eqn:H1.
  assert (∀ forms, forms `sublist_of` posted rest →
                   forms `sublist_of` posted (req :: rest)) as Hskip.
  { intros forms Hf. unfold posted. simpl.
    destruct req as [| | |[] ?]; simpl; try done. by apply sublist_cons. }
  destruct (handle_store_step _ _ _ _ _ _ Hp H1) as [Hs|(form & -> & Ha & Hs)].
  - destruct r1 as [r1|e]; cycle 1.
    { injection Hrun as _ <-. exists []. rewrite app_nil_r.
      split_and!; [done|apply sublist_nil_l|constructor]. }
    destruct (serve v rest w1) as [r2 w2] eqn:H2.
    destruct (IH _ _ _ _ Hs H2) as (forms & Hp2 & Hsub & Hacc).
    exists forms. split_and!; [|by apply Hskip|done].
    destruct r2; injection Hrun as _ <-; done.
  - assert (∀ forms w2,
              persisted w2 ((cs ++ [course_of_form form]) ++ (course_of_form <$> forms)) →
              forms `sublist_of` posted rest → Forall (accepted v) forms →
              ∃ forms', persisted w2 (cs ++ (course_of_form <$> forms')) ∧
                        forms' `sublist_of` posted (ReqAddCourse POST form :: rest) ∧
                        Forall (accepted v) forms') as Hext.
    { intros forms w2 Hp2 Hsub Hacc. exists (form :: forms). split_and!.
      - by rewrite fmap_cons, cons_middle, app_assoc.
      - unfold posted. simpl. by apply sublist_skip.
      - by constructor. }
    destruct r1 as [r1|e]; cycle 1.
    { injection Hrun as _ <-. apply (Hext []).
      - by rewrite app_nil_r.
      - apply sublist_nil_l.
      - constructor. }
    destruct (serve v rest w1) as [r2 w2] eqn:H2.
    destruct (IH _ _ _ _ Hs H2) as (forms & Hp2 & Hsub & Hacc).
    destruct r2; injection Hrun as _ <-; by apply (Hext forms).
Qed.

Lemma serve_store_grows_witness :
  let reqs :=
    [ReqAddCourse POST {["name" := "Algorithms"; "instructor" := "Dr. A";
                         "semester" := "Fall"; "code" := "CS301"]};
     ReqAddCourse POST {["name" := "Compilers"]};
     ReqCourse "CS999"] in
  let w := World (Some (Encoded (PList [PInt 5]))) [] in
  ∃ forms, persisted (serve App reqs w).2 ([PInt 5] ++ (course_of_form <$> forms)) ∧
           forms `sublist_of` posted reqs ∧
           Forall (accepted App) forms.
Proof.
  intros reqs w.
  apply (serve_store_grows App reqs w (serve App reqs w).2 [PInt 5] (serve App reqs w).1).
  - right. reflexivity.
  - reflexivity.
Defined.

Lemma course_details_cases code w :
  (∃ e, course_details code w = (Raise e, w))
  ∨ (∃ c, course_details code w
          = (Ok (Render "course_details.html" [("course", c)]), w))
  ∨ course_details code w
    = (Ok (Redirect "course_catalog"),
       World (course_file w)
         (flashes w ++ [("error", "No course found with code '" +:+ code +:+ "'.")])).
Proof.
  unfold course_details.
  destruct (load_courses_cases w) as [[doc H]|H].
  - rewrite (bind_ok _ _ _ _ _ H). unfold bind, lift.
    destruct (py_iter doc) as [items|e]; [|left; by exists e].
    destruct (next_match code items) as [course|e]; [|left; by exists e].
    destruct (truthy course); [right; left; by exists course|by right; right].
  - rewrite (bind_raise _ _ _ _ _ H). left. by eexists.
Qed.

Lemma snoc_ne {A} (l : list A) x : l ++ [x] ≠ l.
Proof.
  intros H. apply (f_equal length) in H. rewrite length_app in H. simpl in H. lia.
Qed.

(** X16. Notices go with redirects, one each.  A request answered by a
    rendered page, or ended by an exception, leaves the world as it was: no
    notice, no write.  A request answered by a redirect has flashed exactly
    one notice: an error notice, and then the file is as it was, or the
    success notice, and then the redirect is to the catalog and the file has
    changed.  So a success notice is never shown for a course that was not
    written. *)
Theorem redirect_carries_one_notice
    (v : variant) (req : request) (w w' : world) (r : result response) :
  handle v req w = (r, w') →
  match r with
  | Ok (Redirect target) =>
      ∃ category msg,
        flashes w' = flashes w ++ [(category, msg)] ∧
        ((category = "error" ∧ course_file w' = course_file w) ∨
         (category = "success" ∧ target = "course_catalog" ∧
          course_file w' ≠ course_file w))
  | _ => w' = w
  end.
Proof.
  destruct req as [| |code|method form]; simpl.
  - by intros [= <- <-].
  - intros H. pose proof (course_catalog_world v w) as Hw. rewrite H in Hw.
    simpl in Hw. subst w'. destruct r as [[t ctx|target]|e]; try done.
    exfalso. revert H. unfold course_catalog.
    destruct (load_courses_cases w) as [[doc H]|H].
    + rewrite (bind_ok _ _ _ _ _ H). destruct (counts_courses v); [|discriminate].
      unfold bind, lift. destruct (py_len doc); discriminate.
    + by rewrite (bind_raise _ _ _ _ _ H).
  - destruct (course_details_cases code w) as [[e ->]|[[c ->]| ->]].
    + by intros [= <- <-].
    + by intros [= <- <-].
    + intros [= <- <-]. eexists _, _. split; [done|]. by left.
  - assert (method = POST ∨ method ≠ POST) as [->|Hm]
      by (destruct method; auto; right; discriminate); cycle 1.
    { destruct method; try done; by intros [= <- <-]. }
    destruct (add_course_cases v form w) as [(k & msg & _ & _ & ->)|Ha].
    { intros [= <- <-]. eexists _, _. split; [done|]. by left. }
    destruct (save_courses_cases w (course_of_form form)) as [(cs & Hp & _)|[e He]].
    + rewrite (add_course_saves _ _ _ _ Ha Hp). intros [= <- <-].
      eexists _, _. split; [done|]. right. split_and!; [done..|]. simpl.
      destruct Hp as [[-> _]| ->]; [done|].
      intros [= E]. by apply snoc_ne in E.
    + rewrite (add_course_accepts _ _ _ Ha), (bind_raise _ _ _ _ _ He).
      by intros [= <- <-].
Qed.

Lemma redirect_carries_one_notice_witness :
  let w := World (Some (Encoded (PList []))) [] in
  ∃ category msg,
    flashes (course_details "CS999" w).2 = flashes w ++ [(category, msg)] ∧
    ((category = "error" ∧ course_file (course_details "CS999" w).2 = course_file w) ∨
     (category = "success" ∧ "course_catalog" = "course_catalog" ∧
      course_file (course_details "CS999" w).2 ≠ course_file w)).
Proof.
  intros w.
  apply (redirect_carries_one_notice App (ReqCourse "CS999") w
           (course_details "CS999" w).2 (Ok (Redirect "course_catalog"))).
  reflexivity.
Defined.
